(** * WebGL_World: vertex-buffer geometry generators

    A shallow embedding of [src/de.rutsche.webgl/world.js]: the shape
    container [VertexBasedShape], the tessellator
    [GenerateParametricSurface], and the two concrete surfaces [Torus]
    and [Sphere], followed by the properties of the mesh data they
    produce, then [VertexBasedShape.draw] and [Quad].  [World] only
    hands two values to the shader program and is left out. *)

From Stdlib Require Import ZArith QArith Reals Lra Lia.
From stdpp Require Import base list strings pretty.

(** ** JavaScript numbers

    The generators only combine numbers with [+ - * /], integer
    literals and [Math.PI], [Math.cos], [Math.sin].  The code is
    embedded once over any carrier with these operations, and read at
    two carriers: [R] (the exact real arithmetic the numerical
    properties are stated in) and [Q] (which computes, for the
    examples).  No algebraic law is assumed of a carrier: the
    structural properties of the meshes hold whatever the arithmetic
    rounds to. *)

Class Number (F : Type) : Type := {
  num_of_Z : Z -> F;
  num_add : F -> F -> F;
  num_sub : F -> F -> F;
  num_mul : F -> F -> F;
  num_div : F -> F -> F;
  num_neg : F -> F
}.

Class JSMath (F : Type) : Type := {
  Math_PI : F;
  Math_cos : F -> F;
  Math_sin : F -> F
}.

Declare Scope num_scope.
Delimit Scope num_scope with num.
Notation "x + y" := (num_add x y) : num_scope.
Notation "x - y" := (num_sub x y) : num_scope.
Notation "x * y" := (num_mul x y) : num_scope.
Notation "x / y" := (num_div x y) : num_scope.
Notation "- x" := (num_neg x) : num_scope.

#[export] Instance Number_R : Number R := {
  num_of_Z := IZR;
  num_add := Rplus;
  num_sub := Rminus;
  num_mul := Rmult;
  num_div := Rdiv;
  num_neg := Ropp
}.

#[export] Instance JSMath_R : JSMath R := {
  Math_PI := PI;
  Math_cos := cos;
  Math_sin := sin
}.

#[export] Instance Number_Q : Number Q := {
  num_of_Z := inject_Z;
  num_add := Qplus;
  num_sub := Qminus;
  num_mul := Qmult;
  num_div := Qdiv;
  num_neg := Qopp
}.

(** ** Completions and the console *)

Inductive JSError : Type :=
| RangeError.

Inductive Completion (A : Type) : Type :=
| Normal (a : A)
| Throw (e : JSError).

Arguments Normal {A} a.
Arguments Throw {A} e.

(** What a call can see and change besides its arguments: the state
    [W] the surface evaluators live in, and the lines written with
    [window.console.log]. *)
Record Env (W : Type) : Type := mkEnv {
  world : W;
  console : list string
}.

Arguments mkEnv {W} world console.
Arguments world {W} e.
Arguments console {W} e.

Definition JS (W A : Type) : Type := Env W -> Completion (A * Env W).

#[export] Instance JS_ret {W} : MRet (JS W) :=
  fun A (a : A) env => Normal (a, env).

#[export] Instance JS_bind {W} : MBind (JS W) :=
  fun A B (k : A -> JS W B) (c : JS W A) env =>
    match c env with
    | Normal (a, env') => k a env'
    | Throw e => Throw e
    end.

Definition throw {W A} (e : JSError) : JS W A := fun _ => Throw e.

Definition console_log {W} (msg : string) : JS W unit :=
  fun env => Normal (tt, mkEnv (world env) (console env ++ [msg])).

Definition in_world {W A} (f : W -> A * W) : JS W A :=
  fun env => let '(a, w) := f (world env) in Normal (a, mkEnv w (console env)).

(** ** Loops

    [for (var i = lo; i <= hi; i++) body] and
    [for (var i = lo; i < hi; i++) body], for a body that does not
    assign the loop variable: the number of iterations is known on
    entry. *)

Fixpoint for_upto {S : Type} (n : nat) (i : Z) (body : Z -> S -> S) (s : S) : S :=
  match n with
  | O => s
  | Datatypes.S n' => for_upto n' (i + 1)%Z body (body i s)
  end.

Definition for_le {S : Type} (lo hi : Z) (body : Z -> S -> S) (s : S) : S :=
  for_upto (Z.to_nat (hi + 1 - lo)) lo body s.

Definition for_lt {S : Type} (lo hi : Z) (body : Z -> S -> S) (s : S) : S :=
  for_upto (Z.to_nat (hi - lo)) lo body s.

(** ** The WebGL enumerations the code names *)

Inductive PrimitiveType : Type :=
| POINTS | LINES | TRIANGLES | TRIANGLE_STRIP | TRIANGLE_FAN.

Inductive DataType : Type :=
| FLOAT.

Section Geometry.

Context {F : Type} {numF : Number F}.

Local Open Scope num_scope.

Definition vec2 : Type := F * F.
Definition vec3 : Type := F * F * F.

(** A [Float32Array] is a fixed-length array of numbers;
    [new Float32Array(n)] is filled with zeros and throws a
    [RangeError] for a negative length.  No upper limit is put on the
    length of an array, and the rounding of a stored number to single
    precision is left to the carrier. *)
Definition Float32Array : Type := list F.

Definition new_Float32Array {W} (n : Z) : JS W Float32Array :=
  if (n <? 0)%Z then throw RangeError
  else mret (replicate (Z.to_nat n) (num_of_Z 0)).

(** Modelled from the spec: the constructor [VertexAttributeBuffer] is
    used by the source but defined outside it.  The spec describes a
    vertex attribute buffer as "a named, typed, fixed-length numeric
    array (e.g. "vertexPosition", 3 components, float)"; the record
    keeps the four constructor arguments, and the [numVertices] the
    constructor computes, which [addVertexAttribute] reads back. *)
Record VertexAttributeBuffer : Type := mkVertexAttributeBuffer {
  attrType : string;
  dataType : DataType;
  numElements : Z;
  dataArray : Float32Array;
  buf_numVertices : Z
}.

(** How the absent constructor derives [numVertices] from its
    arguments is left open. *)
Variable count_vertices : string -> DataType -> Z -> Float32Array -> Z.

Definition new_VertexAttributeBuffer
    (attrType : string) (dataType : DataType) (numElements : Z)
    (dataArray : Float32Array) : VertexAttributeBuffer :=
  mkVertexAttributeBuffer attrType dataType numElements dataArray
    (count_vertices attrType dataType numElements dataArray).

(** ** VertexBasedShape *)

Record VertexBasedShape : Type := mkShape {
  vertexBuffers : list VertexAttributeBuffer;
  elementBuffer : option (list Z);
  primitiveType : PrimitiveType;
  numVertices : Z
}.

Definition new_VertexBasedShape (primitiveType : PrimitiveType) (numVertices : Z)
    : VertexBasedShape :=
  mkShape [] None primitiveType numVertices.

Definition wrong_number_warning (got expected : Z) (attrType : string) : string :=
  ("Warning: wrong number of vertices (" ++ pretty got ++ " instead of "
     ++ pretty expected ++ ") for attribute " ++ attrType)%string.

Definition addVertexAttribute {W} (this : VertexBasedShape)
    (attrType : string) (dataType : DataType) (numElements : Z)
    (dataArray : Float32Array) : JS W VertexBasedShape :=
  let buf := new_VertexAttributeBuffer attrType dataType numElements dataArray in
  let this' := mkShape (vertexBuffers this ++ [buf]) (elementBuffer this)
                 (primitiveType this) (numVertices this) in
  if negb (numVertices this' =? buf_numVertices buf)%Z then
    console_log
      (wrong_number_warning (buf_numVertices buf) (numVertices this') attrType) ;;
    mret this'
  else mret this'.

Definition addElementIndices (this : VertexBasedShape) (indices : list Z)
    : VertexBasedShape :=
  mkShape (vertexBuffers this) (Some indices) (primitiveType this) (numVertices this).

(** The numbers a shape carries for a named attribute: the data of the
    first buffer of that name, nothing when there is none. *)
Definition stream (shape : VertexBasedShape) (name : string) : list F :=
  match List.find (fun b => String.eqb (attrType b) name) (vertexBuffers shape) with
  | Some b => dataArray b
  | None => []
  end.

Definition has_buffer (shape : VertexBasedShape) (name : string) : bool :=
  existsb (fun b => String.eqb (attrType b) name) (vertexBuffers shape).

(** ** GenerateParametricSurface *)

(** The object handed to the tessellator: each of the three methods
    may be undefined.  A method is a JavaScript function: besides
    computing its result from [(u,v)] it may read and write the
    state [W]. *)
Record Surface (W : Type) : Type := mkSurface {
  texCoord : option (F -> F -> W -> vec2 * W);
  position : option (F -> F -> W -> vec3 * W);
  normal : option (F -> F -> W -> vec3 * W)
}.

#[local] Arguments mkSurface {W} texCoord position normal.
#[local] Arguments texCoord {W} s.
#[local] Arguments position {W} s.
#[local] Arguments normal {W} s.

(** An output array together with the "current index" variable that
    walks it ([vposition] with [pos_i], and so on). *)
Record Cursor : Type := mkCursor {
  arr : Float32Array;
  idx : nat
}.

(** [a[i++] = x].  A typed array ignores a write past its end. *)
Definition store (x : F) (c : Cursor) : Cursor :=
  mkCursor (<[idx c := x]> (arr c)) (S (idx c)).

Record GenState : Type := mkGenState {
  vposition : Cursor;
  vnormal : Cursor;
  vcolor : Cursor;
  vtexcoord : Cursor
}.

Definition pos_i (g : GenState) : nat := idx (vposition g).
Definition nor_i (g : GenState) : nat := idx (vnormal g).
Definition col_i (g : GenState) : nat := idx (vcolor g).
Definition tex_i (g : GenState) : nat := idx (vtexcoord g).

Section Tessellate.

Context {W : Type}.
Variable obj : Surface W.

Definition makeVertex (uu vv : F) (color : option vec3) (st : GenState * W)
    : GenState * W :=
  let '(g, w) := st in
  let '(g, w) :=
    match texCoord obj with
    | Some f =>
        let '((t0, t1), w) := f uu vv w in
        (mkGenState (vposition g) (vnormal g) (vcolor g)
           (store t1 (store t0 (vtexcoord g))), w)
    | None => (g, w)
    end in
  let '(g, w) :=
    match position obj with
    | Some f =>
        let '((p0, p1, p2), w) := f uu vv w in
        (mkGenState (store p2 (store p1 (store p0 (vposition g))))
           (vnormal g) (vcolor g) (vtexcoord g), w)
    | None => (g, w)
    end in
  let '(g, w) :=
    match normal obj with
    | Some f =>
        let '((n0, n1, n2), w) := f uu vv w in
        (mkGenState (vposition g) (store n2 (store n1 (store n0 (vnormal g))))
           (vcolor g) (vtexcoord g), w)
    | None => (g, w)
    end in
  match color with
  | Some (c0, c1, c2) =>
      (mkGenState (vposition g) (vnormal g)
         (store c2 (store c1 (store c0 (vcolor g)))) (vtexcoord g), w)
  | None => (g, w)
  end.

Variables (M N : Z) (umin umax vmin vmax : F) (col1 col2 : option vec3).

(** The body of the inner loop, for the cell [(i, j)]. *)
Definition patch (i j : Z) (st : GenState * W) : GenState * W :=
  let u0 := umin + (num_of_Z i - num_of_Z 1) * (umax - umin) / num_of_Z M in
  let v0 := vmin + (num_of_Z j - num_of_Z 1) * (vmax - vmin) / num_of_Z N in
  let u := umin + num_of_Z i * (umax - umin) / num_of_Z M in
  let v := vmin + num_of_Z j * (vmax - vmin) / num_of_Z N in
  let color := if (Z.rem (i + j) 2 =? 0)%Z then col1 else col2 in
  let st := makeVertex u0 v color st in
  let st := makeVertex u0 v0 color st in
  let st := makeVertex u v0 color st in
  let st := makeVertex u v color st in
  let st := makeVertex u0 v color st in
  let st := makeVertex u v0 color st in
  st.

Definition grid (st : GenState * W) : GenState * W :=
  for_le 1 M (fun i => for_le 1 N (fun j => patch i j)) st.

Definition GenerateParametricSurface : JS W VertexBasedShape :=
  let numVertices := (M * N * 6)%Z in
  let shape := new_VertexBasedShape TRIANGLES numVertices in
  a_position ← new_Float32Array (numVertices * 3)%Z ;
  a_normal ← new_Float32Array (numVertices * 3)%Z ;
  a_color ← new_Float32Array (numVertices * 3)%Z ;
  a_texcoord ← new_Float32Array (numVertices * 2)%Z ;
  g ← in_world (fun w =>
         grid (mkGenState (mkCursor a_position 0) (mkCursor a_normal 0)
                 (mkCursor a_color 0) (mkCursor a_texcoord 0), w)) ;
  shape ← (if position obj is Some _
           then addVertexAttribute shape "vertexPosition" FLOAT 3 (arr (vposition g))
           else mret shape) ;
  shape ← (if normal obj is Some _
           then addVertexAttribute shape "vertexNormal" FLOAT 3 (arr (vnormal g))
           else mret shape) ;
  shape ← (if texCoord obj is Some _
           then addVertexAttribute shape "vertexTexCoord" FLOAT 2 (arr (vtexcoord g))
           else mret shape) ;
  shape ← (if col1 is Some _
           then if col2 is Some _
                then addVertexAttribute shape "vertexColor" FLOAT 3 (arr (vcolor g))
                else mret shape
           else mret shape) ;
  mret shape.

End Tessellate.

(** ** The global object

    [Torus.normal] assigns [h] and [Sphere] assigns [u1] and [u2]
    without declaring them: the three are properties of the global
    object, shared by every call. *)
Record Globals : Type := mkGlobals {
  h : F;
  u1 : F;
  u2 : F
}.

Context {mathF : JSMath F}.

(** ** Torus *)

Record TorusObject : Type := mkTorus {
  radius : F;
  radius2 : F
}.

Definition Torus_position (this : TorusObject) (t p : F) (w : Globals)
    : vec3 * Globals :=
  (((radius this + radius2 this * Math_cos p) * Math_cos t,
    (radius this + radius2 this * Math_cos p) * Math_sin t,
    radius2 this * Math_sin p), w).

Definition Torus_normal (this : TorusObject) (t p : F) (w : Globals)
    : vec3 * Globals :=
  let w := mkGlobals (num_of_Z 1) (u1 w) (u2 w) in
  ((Math_cos t * Math_cos p * h w,
    Math_sin t * Math_cos p * h w,
    Math_sin p * h w), w).

Definition Torus_texCoord (this : TorusObject) (u v : F) (w : Globals)
    : vec2 * Globals :=
  ((u / (num_of_Z 2 * Math_PI), v / (num_of_Z 2 * Math_PI)), w).

Definition Torus_surface (this : TorusObject) : Surface Globals :=
  mkSurface (Some (Torus_texCoord this)) (Some (Torus_position this))
    (Some (Torus_normal this)).

(** The constructor; its value here is the [shape] member of the new
    object. *)
Definition Torus (radius radius2 : F) (N M : Z) (col1 col2 : option vec3)
    : JS Globals VertexBasedShape :=
  let this := mkTorus radius radius2 in
  GenerateParametricSurface (Torus_surface this) M N
    (num_of_Z 0) (num_of_Z 2 * Math_PI) (num_of_Z 0) (num_of_Z 2 * Math_PI)
    col1 col2.

(** ** Sphere *)

(** [vec3.normalize] comes from the glMatrix library, outside this
    repository. *)
Variable vec3_normalize : vec3 -> vec3.

Record SphereLists : Type := mkSphereLists {
  vList : list F;
  nList : list F;
  tList : list F;
  cList : list F
}.

(** The body of the loop over [k]: three pushes onto [cList].  On
    numbers [%] is the remainder that takes the sign of the dividend,
    [Z.rem]. *)
Definition Sphere_colors (c1 c2 : vec3) (i j k : Z) (cList : list F) : list F :=
  if (Z.rem i 2 + Z.rem j 2 =? 1)%Z
  then ((cList ++ [c1.1.1]) ++ [c1.1.2]) ++ [c1.2]
  else ((cList ++ [c2.1.1]) ++ [c2.1.2]) ++ [c2.2].

(** The body of the inner loop, for the cell [(i, j)].  The literal
    [0.25] is written as 1/4. *)
Definition Sphere_patch (r : F) (N M : Z) (c1 c2 : vec3) (i j : Z)
    (st : SphereLists * Globals) : SphereLists * Globals :=
  let '(l, w) := st in
  let w := mkGlobals (h w) (Math_PI / num_of_Z N * num_of_Z i) (u2 w) in
  let v1 := Math_PI * num_of_Z 2 / num_of_Z M * num_of_Z j in
  let w := mkGlobals (h w) (u1 w)
             (Math_PI / num_of_Z N * (num_of_Z i - num_of_Z 1)) in
  let v2 := Math_PI * num_of_Z 2 / num_of_Z M * (num_of_Z j - num_of_Z 1) in
  let x1 := (r * Math_sin (u1 w)) * Math_cos v1 in
  let x2 := (r * Math_sin (u1 w)) * Math_cos v2 in
  let x3 := (r * Math_sin (u2 w)) * Math_cos v1 in
  let x4 := (r * Math_sin (u2 w)) * Math_cos v2 in
  let tx1 := u1 w / Math_PI in
  let tx2 := u1 w / Math_PI in
  let tx3 := u2 w / Math_PI in
  let tx4 := u2 w / Math_PI in
  let y1 := (r * Math_sin (u1 w)) * Math_sin v1 in
  let y2 := (r * Math_sin (u1 w)) * Math_sin v2 in
  let y3 := (r * Math_sin (u2 w)) * Math_sin v1 in
  let y4 := (r * Math_sin (u2 w)) * Math_sin v2 in
  let ty1 := v1 / (num_of_Z 2 * Math_PI) in
  let ty2 := v2 / (num_of_Z 2 * Math_PI) in
  let ty3 := v1 / (num_of_Z 2 * Math_PI) in
  let ty4 := v2 / (num_of_Z 2 * Math_PI) in
  let z1 := r * Math_cos (u1 w) in
  let z2 := r * Math_cos (u1 w) in
  let z3 := r * Math_cos (u2 w) in
  let z4 := r * Math_cos (u2 w) in
  let vList := vList l ++ [x1; y1; z1; x3; y3; z3; x4; y4; z4;
                           x1; y1; z1; x2; y2; z2; x4; y4; z4] in
  let '(v1_0, v1_1, v1_2) := vec3_normalize (x1, y1, z1) in
  let '(v2_0, v2_1, v2_2) := vec3_normalize (x2, y2, z2) in
  let '(v3_0, v3_1, v3_2) := vec3_normalize (x3, y3, z3) in
  let '(v4_0, v4_1, v4_2) := vec3_normalize (x4, y4, z4) in
  let nList := nList l ++ [v1_0; v1_1; v1_2; v3_0; v3_1; v3_2; v4_0; v4_1; v4_2;
                           v1_0; v1_1; v1_2; v2_0; v2_1; v2_2; v4_0; v4_1; v4_2] in
  let quarter := num_of_Z 1 / num_of_Z 4 in
  let tList := tList l ++ [ty1 + quarter; - tx1; ty3 + quarter; - tx3;
                           ty4 + quarter; - tx4; ty1 + quarter; - tx1;
                           ty2 + quarter; - tx2; ty4 + quarter; - tx4] in
  let cList := for_lt 0 6 (Sphere_colors c1 c2 i j) (cList l) in
  (mkSphereLists vList nList tList cList, w).

Definition Sphere_grid (r : F) (N M : Z) (c1 c2 : vec3)
    (st : SphereLists * Globals) : SphereLists * Globals :=
  for_le 1 N (fun i => for_le 1 M (fun j => Sphere_patch r N M c1 c2 i j)) st.

(** The constructor; its value here is the [shape] member of the new
    object.  [vposition.length / 3] is an integer: every cell pushes 18
    numbers onto [vList]. *)
Definition Sphere (r : F) (N M : Z) (c1 c2 : vec3) : JS Globals VertexBasedShape :=
  l ← in_world (fun w => Sphere_grid r N M c1 c2 (mkSphereLists [] [] [] [], w)) ;
  let vnormal : Float32Array := nList l in
  let vtexcoord : Float32Array := tList l in
  let vposition : Float32Array := vList l in
  let vcolor : Float32Array := cList l in
  let shape := new_VertexBasedShape TRIANGLES (Z.of_nat (length vposition) / 3)%Z in
  shape ← addVertexAttribute shape "vertexPosition" FLOAT 3 vposition ;
  shape ← addVertexAttribute shape "vertexColor" FLOAT 3 vcolor ;
  shape ← addVertexAttribute shape "vertexNormal" FLOAT 3 vnormal ;
  shape ← addVertexAttribute shape "vertexTexCoord" FLOAT 2 vtexcoord ;
  mret shape.

End Geometry.

Arguments vec2 F : clear implicits.
Arguments vec3 F : clear implicits.
Arguments Float32Array F : clear implicits.
Arguments VertexAttributeBuffer F : clear implicits.
Arguments VertexBasedShape F : clear implicits.
Arguments Surface F W : clear implicits.
Arguments Cursor F : clear implicits.
Arguments GenState F : clear implicits.
Arguments Globals F : clear implicits.
Arguments TorusObject F : clear implicits.
Arguments SphereLists F : clear implicits.
Arguments mkSurface {F W} texCoord position normal.
Arguments texCoord {F W} s.
Arguments position {F W} s.
Arguments normal {F W} s.

(** * Reading the results

    What the properties below are stated with: how the data of a
    patch is cut out of an attribute array, when a method counts as
    pure, and the state a call of the tessellator goes through. *)

(** The result of a call without the environment it leaves. *)
Definition value_of {W A : Type} (c : Completion (A * Env W)) : Completion A :=
  match c with
  | Normal (a, _) => Normal a
  | Throw e => Throw e
  end.

(** The vertices of the patch [(i, j)] within an attribute array of
    [comps] numbers per vertex: the patches lie in the order the
    loops visit them, rows of [inner] patches, six vertices each. *)
Definition vertices_of_patch {A : Type} (comps : nat) (inner i j : Z)
    (data : list A) : list A :=
  take (6 * comps) (drop (6 * comps * Z.to_nat ((i - 1) * inner + (j - 1))) data).

Definition both {A : Type} (a b : option A) : option (A * A) :=
  match a, b with
  | Some x, Some y => Some (x, y)
  | _, _ => None
  end.

Section Reading.

Context {F : Type} {numF : Number F}.

Local Open Scope num_scope.

Definition vec2_list (v : vec2 F) : list F := [v.1; v.2].
Definition vec3_list (v : vec3 F) : list F := [v.1.1; v.1.2; v.2].

Definition color_list (color : option (vec3 F)) : list F :=
  match color with
  | Some c => vec3_list c
  | None => []
  end.

(** Consecutive stores. *)
Definition stores (xs : list F) (c : Cursor F) : Cursor F :=
  foldl (fun c x => store x c) c xs.

(** [tracks c l cap]: the cursor [c] walks a zero-filled array of
    length [cap] into which the numbers [l] have been stored one
    after the other from index 0; stores past the end are lost. *)
Definition tracks (c : Cursor F) (l : list F) (cap : nat) : Prop :=
  arr c = take cap (l ++ replicate cap (num_of_Z 0)) /\ idx c = length l.

Definition lengths_of (g : GenState F) : nat * nat * nat * nat :=
  (length (arr (vposition g)), length (arr (vnormal g)),
   length (arr (vcolor g)), length (arr (vtexcoord g))).

Definition origin2 : F -> F -> vec2 F := fun _ _ => (num_of_Z 0, num_of_Z 0).
Definition origin3 : F -> F -> vec3 F :=
  fun _ _ => (num_of_Z 0, num_of_Z 0, num_of_Z 0).

Definition zeros (n : Z) : Float32Array F := replicate (Z.to_nat n) (num_of_Z 0).

(** The color the sphere gives the patch [(i, j)]. *)
Definition Sphere_patch_color (c1 c2 : vec3 F) (i j : Z) : vec3 F :=
  if (Z.rem i 2 + Z.rem j 2 =? 1)%Z then c1 else c2.

Section Methods.

Context {W A : Type}.

(** A method is pure when its result is a function of [(u, v)] alone;
    it may still write to the state, as [Torus.normal] does. *)
Definition pure_method (f : F -> F -> W -> A * W) (g : F -> F -> A) : Prop :=
  forall u v w, (f u v w).1 = g u v.

Definition pure_option (o : option (F -> F -> W -> A * W)) : Prop :=
  match o with
  | Some f => exists g, pure_method f g
  | None => True
  end.

Definition pure_as (o : option (F -> F -> W -> A * W)) (g : F -> F -> A) : Prop :=
  match o with
  | Some f => pure_method f g
  | None => True
  end.

(** The numbers a call of [makeVertex] stores for a method that is
    pure as [g]. *)
Definition emitted (o : option (F -> F -> W -> A * W))
    (to_list : A -> list F) (g : F -> F -> A) (uu vv : F) : list F :=
  match o with
  | Some _ => to_list (g uu vv)
  | None => []
  end.

End Methods.

Definition pure_surface {W : Type} (obj : Surface F W) : Prop :=
  pure_option (texCoord obj) /\ pure_option (position obj)
  /\ pure_option (normal obj).

(** A record of the calls of the methods of a surface: the name of
    the method and its two arguments, in the order of the calls. *)
Definition MethodCall : Type := string * F * F.

Definition traced_method {W A : Type} (name : string) (f : F -> F -> W -> A * W)
    : F -> F -> W * list MethodCall -> A * (W * list MethodCall) :=
  fun u v s =>
    let '(a, w) := f u v s.1 in (a, (w, s.2 ++ [(name, u, v)])).

(** The surface [obj] with each method made to note its call. *)
Definition traced {W : Type} (obj : Surface F W) : Surface F (W * list MethodCall) :=
  mkSurface (traced_method "texCoord" <$> texCoord obj)
    (traced_method "position" <$> position obj)
    (traced_method "normal" <$> normal obj).

(** How many of the three methods the surface defines. *)
Definition defined_methods {W : Type} (obj : Surface F W) : nat :=
  (if texCoord obj is Some _ then 1 else 0)
  + (if position obj is Some _ then 1 else 0)
  + (if normal obj is Some _ then 1 else 0).

(** The calls one [makeVertex uu vv color] makes. *)
Definition calls_at {W : Type} (obj : Surface F W) (uu vv : F) : list MethodCall :=
  (if texCoord obj is Some _ then [("texCoord"%string, uu, vv)] else [])
  ++ (if position obj is Some _ then [("position"%string, uu, vv)] else [])
  ++ (if normal obj is Some _ then [("normal"%string, uu, vv)] else []).

Section Call.

Variable count_vertices : string -> DataType -> Z -> Float32Array F -> Z.
Context {W : Type}.
Variable obj : Surface F W.
Variables (M N : Z) (umin umax vmin vmax : F) (col1 col2 : option (vec3 F)).

(** The numbers the patch [(i, j)] adds to an array that receives
    [vals uu vv color] from each call [makeVertex uu vv color]. *)
Definition patch_values {A : Type} (vals : F -> F -> option (vec3 F) -> list A)
    (i j : Z) : list A :=
  let u0 := umin + (num_of_Z i - num_of_Z 1) * (umax - umin) / num_of_Z M in
  let v0 := vmin + (num_of_Z j - num_of_Z 1) * (vmax - vmin) / num_of_Z N in
  let u := umin + num_of_Z i * (umax - umin) / num_of_Z M in
  let v := vmin + num_of_Z j * (vmax - vmin) / num_of_Z N in
  let color := if (Z.rem (i + j) 2 =? 0)%Z then col1 else col2 in
  vals u0 v color ++ vals u0 v0 color ++ vals u v0 color
    ++ vals u v color ++ vals u0 v color ++ vals u v0 color.

(** The loops' variables when the loops are entered. *)
Definition initial_state : GenState F :=
  mkGenState (mkCursor (zeros (M * N * 6 * 3)) 0) (mkCursor (zeros (M * N * 6 * 3)) 0)
    (mkCursor (zeros (M * N * 6 * 3)) 0) (mkCursor (zeros (M * N * 6 * 2)) 0).

(** The state of the loops' variables and of the world when the loops
    are left, for a call entered in the world [w]. *)
Definition final_state (w : W) : GenState F * W :=
  grid obj M N umin umax vmin vmax col1 col2 (initial_state, w).

Definition attached {A : Type} (o : option A) (name : string) (comps : Z)
    (data : Float32Array F) : list (VertexAttributeBuffer F) :=
  match o with
  | Some _ => [new_VertexAttributeBuffer count_vertices name FLOAT comps data]
  | None => []
  end.

(** The shape a call entered in the world [w] returns. *)
Definition result_shape (w : W) : VertexBasedShape F :=
  let g := (final_state w).1 in
  mkShape
    (attached (position obj) "vertexPosition" 3 (arr (vposition g))
     ++ attached (normal obj) "vertexNormal" 3 (arr (vnormal g))
     ++ attached (texCoord obj) "vertexTexCoord" 2 (arr (vtexcoord g))
     ++ attached (both col1 col2) "vertexColor" 3 (arr (vcolor g)))
    None TRIANGLES (M * N * 6).

End Call.

End Reading.

(** ** Inputs for the worked instances *)

(** A way the buffer constructor may count vertices: the length of
    the data over the number of components. *)
Definition length_per_element {F : Type} (attrType : string) (dataType : DataType)
    (numElements : Z) (dataArray : Float32Array F) : Z :=
  (Z.of_nat (length dataArray) / numElements)%Z.

(** A surface with a position method only: the plane z = 0. *)
Definition plane : Surface Q unit :=
  mkSurface None (Some (fun u v w => ((u, v, 0%Q), w))) None.

(** A surface whose position method counts its calls. *)
Definition counting : Surface Q Z :=
  mkSurface None (Some (fun u v n => ((inject_Z n, u, v), (n + 1)%Z))) None.

Definition red : vec3 Q := (1%Q, 0%Q, 0%Q).
Definition blue : vec3 Q := (0%Q, 0%Q, 1%Q).

Definition start {W : Type} (w : W) : Env W := mkEnv w [].

(** * The rest of the file: [draw] and [Quad] *)

(** ** VertexBasedShape.draw

    [draw] only talks to WebGL: it calls [makeActive] on each vertex
    buffer and on the element buffer, then [gl.drawArrays].  These
    three are defined outside the repository; the calls are recorded,
    in order. *)

Inductive GLCall (F : Type) : Type :=
| MakeActive (buf : VertexAttributeBuffer F)
| MakeActiveElements (indices : list Z)
| DrawArrays (mode : PrimitiveType) (first count : Z).

Arguments MakeActive {F} buf.
Arguments MakeActiveElements {F} indices.
Arguments DrawArrays {F} mode first count.

(** What [draw] changes: the calls received by WebGL so far, and the
    loop variable [attribute], which the source does not declare and
    which therefore lives on the global object. *)
Record DrawEnv (F : Type) : Type := mkDrawEnv {
  gl_calls : list (GLCall F);
  attribute : Z
}.

Arguments mkDrawEnv {F} gl_calls attribute.
Arguments gl_calls {F} d.
Arguments attribute {F} d.

Section Draw.

Context {F : Type}.

(** [numElements] of an [ElementBuffer], a constructor defined
    outside the repository, as a function of the indices given. *)
Variable count_elements : list Z -> Z.

Definition gl_call (c : GLCall F) (st : DrawEnv F) : DrawEnv F :=
  mkDrawEnv (gl_calls st ++ [c]) (attribute st).

(** One round of the loop over the vertex buffers, entered with
    [attribute = k]: [this.vertexBuffers[attribute].makeActive(program)]
    and then [attribute++].  Reading past the end of the array gives
    [undefined], whose method call throws a [TypeError]: [None]. *)
Definition draw_activate (this : VertexBasedShape F) (k : Z)
    (st : option (DrawEnv F)) : option (DrawEnv F) :=
  match st with
  | Some st =>
      match vertexBuffers this !! Z.to_nat k with
      | Some buf => Some (mkDrawEnv (gl_calls st ++ [MakeActive buf]) (k + 1))
      | None => None
      end
  | None => None
  end.

Definition draw (this : VertexBasedShape F) (st : DrawEnv F) : option (DrawEnv F) :=
  match for_lt 0 (Z.of_nat (length (vertexBuffers this))) (draw_activate this)
          (Some (mkDrawEnv (gl_calls st) 0)) with
  | Some st =>
      let st := match elementBuffer this with
                | Some indices => gl_call (MakeActiveElements indices) st
                | None => st
                end in
      let n := match elementBuffer this with
               | Some indices => count_elements indices
               | None => numVertices this
               end in
      Some (gl_call (DrawArrays (primitiveType this) 0 n) st)
  | None => None
  end.

End Draw.

(** ** Quad *)

Section QuadCode.

Context {F : Type} {numF : Number F}.
Variable count_vertices : string -> DataType -> Z -> Float32Array F -> Z.

(** [vec3.cross] and [vec3.normalize] come from the glMatrix library,
    outside this repository. *)
Variable vec3_cross : vec3 F -> vec3 F -> vec3 F.
Variable vec3_normalize : vec3 F -> vec3 F.

Local Open Scope num_scope.

(** The constructor; its value here is the [shape] member of the new
    object. *)
Definition Quad {W : Type} (o u v : vec3 F) : JS W (VertexBasedShape F) :=
  let '(o0, o1, o2) := o in
  let '(u0, u1, u2) := u in
  let '(v0, v1, v2) := v in
  let shape := new_VertexBasedShape TRIANGLES 6 in
  let vposition : Float32Array F :=
    [o0; o1; o2;
     o0 + u0; o1 + u1; o2 + u2;
     o0 + u0 + v0; o1 + u1 + v1; o2 + u2 + v2;
     o0 + v0; o1 + v1; o2 + v2;
     o0; o1; o2;
     o0 + u0 + v0; o1 + u1 + v1; o2 + u2 + v2] in
  shape ← addVertexAttribute count_vertices shape "vertexPosition" FLOAT 3 vposition ;
  let vtexcoord : Float32Array F :=
    [num_of_Z 0; num_of_Z 0; num_of_Z 1; num_of_Z 0; num_of_Z 1; num_of_Z 1;
     num_of_Z 0; num_of_Z 1; num_of_Z 0; num_of_Z 0; num_of_Z 1; num_of_Z 1] in
  shape ← addVertexAttribute count_vertices shape "vertexTexCoord" FLOAT 2 vtexcoord ;
  let norm := vec3_cross (u0, u1, u2) (v0, v1, v2) in
  let '(norm0, norm1, norm2) := vec3_normalize norm in
  let vnormal : Float32Array F :=
    [norm0; norm1; norm2; norm0; norm1; norm2; norm0; norm1; norm2;
     norm0; norm1; norm2; norm0; norm1; norm2; norm0; norm1; norm2] in
  shape ← addVertexAttribute count_vertices shape "vertexNormal" FLOAT 3 vnormal ;
  mret shape.

End QuadCode.

(** * Reading the results, continued *)

(** The vertices of an attribute array, three or two numbers each. *)
Fixpoint vec3s_of {F : Type} (data : list F) : list (vec3 F) :=
  match data with
  | a :: b :: c :: rest => (a, b, c) :: vec3s_of rest
  | _ => []
  end.

Fixpoint vec2s_of {F : Type} (data : list F) : list (vec2 F) :=
  match data with
  | a :: b :: rest => (a, b) :: vec2s_of rest
  | _ => []
  end.

(** A buffer constructor counts exactly when it finds [k] vertices in
    every array of [k] times [numElements] numbers. *)
Definition exact_counter {F : Type}
    (count_vertices : string -> DataType -> Z -> Float32Array F -> Z) : Prop :=
  forall name dataType numElements (data : Float32Array F) k,
    (0 < numElements)%Z ->
    Z.of_nat (length data) = (k * numElements)%Z ->
    count_vertices name dataType numElements data = k.

(** The calls of one method among the calls noted. *)
Definition calls_of {F : Type} (name : string) (calls : list (MethodCall (F:=F)))
    : list (MethodCall (F:=F)) :=
  filter (fun c => c.1.1 = name) calls.

Section SphereReading.

Context {F : Type} {numF : Number F} {mathF : JSMath F}.

Local Open Scope num_scope.

(** The point the sphere code computes for the angles [(u, v)]. *)
Definition Sphere_point (r u v : F) : vec3 F :=
  ((r * Math_sin u) * Math_cos v, (r * Math_sin u) * Math_sin v, r * Math_cos u).

(** The four angles of the patch [(i, j)]: [u1], [u2], [v1], [v2]. *)
Definition Sphere_u1 (N i : Z) : F := Math_PI / num_of_Z N * num_of_Z i.
Definition Sphere_u2 (N i : Z) : F :=
  Math_PI / num_of_Z N * (num_of_Z i - num_of_Z 1).
Definition Sphere_v1 (M j : Z) : F :=
  Math_PI * num_of_Z 2 / num_of_Z M * num_of_Z j.
Definition Sphere_v2 (M j : Z) : F :=
  Math_PI * num_of_Z 2 / num_of_Z M * (num_of_Z j - num_of_Z 1).

(** The six vertices of the patch [(i, j)], in the order pushed. *)
Definition Sphere_patch_points (r : F) (N M i j : Z) : list (vec3 F) :=
  let p1 := Sphere_point r (Sphere_u1 N i) (Sphere_v1 M j) in
  let p2 := Sphere_point r (Sphere_u1 N i) (Sphere_v2 M j) in
  let p3 := Sphere_point r (Sphere_u2 N i) (Sphere_v1 M j) in
  let p4 := Sphere_point r (Sphere_u2 N i) (Sphere_v2 M j) in
  [p1; p3; p4; p1; p2; p4].

(** The texture coordinates pushed for the angles [(u, v)]. *)
Definition Sphere_texcoord (u v : F) : vec2 F :=
  (v / (num_of_Z 2 * Math_PI) + num_of_Z 1 / num_of_Z 4, - (u / Math_PI)).

Definition Sphere_patch_texcoords (N M i j : Z) : list (vec2 F) :=
  let t1 := Sphere_texcoord (Sphere_u1 N i) (Sphere_v1 M j) in
  let t2 := Sphere_texcoord (Sphere_u1 N i) (Sphere_v2 M j) in
  let t3 := Sphere_texcoord (Sphere_u2 N i) (Sphere_v1 M j) in
  let t4 := Sphere_texcoord (Sphere_u2 N i) (Sphere_v2 M j) in
  [t1; t3; t4; t1; t2; t4].

(** All the vertices of the sphere, row after row. *)
Definition Sphere_points (r : F) (N M : Z) : list (vec3 F) :=
  flat_map (fun i => flat_map (fun j => Sphere_patch_points r N M i j) (seqZ 1 M))
    (seqZ 1 N).

Definition Sphere_texcoords (N M : Z) : list (vec2 F) :=
  flat_map (fun i => flat_map (fun j => Sphere_patch_texcoords N M i j) (seqZ 1 M))
    (seqZ 1 N).

End SphereReading.

(** What a call of [Torus.normal] leaves of the global object. *)
Definition h_set {F : Type} {numF : Number F} (w : Globals F) : Globals F :=
  mkGlobals (num_of_Z 1) (u1 w) (u2 w).

Section QuadReading.

Context {F : Type} {numF : Number F}.

Local Open Scope num_scope.

(** The six vertices of the quad and their texture coordinates, in
    the order of the arrays. *)
Definition Quad_positions (o u v : vec3 F) : list (vec3 F) :=
  let '(o0, o1, o2) := o in
  let '(u0, u1, u2) := u in
  let '(v0, v1, v2) := v in
  [(o0, o1, o2);
   (o0 + u0, o1 + u1, o2 + u2);
   (o0 + u0 + v0, o1 + u1 + v1, o2 + u2 + v2);
   (o0 + v0, o1 + v1, o2 + v2);
   (o0, o1, o2);
   (o0 + u0 + v0, o1 + u1 + v1, o2 + u2 + v2)].

Definition Quad_texcoords : list (vec2 F) :=
  [(num_of_Z 0, num_of_Z 0); (num_of_Z 1, num_of_Z 0); (num_of_Z 1, num_of_Z 1);
   (num_of_Z 0, num_of_Z 1); (num_of_Z 0, num_of_Z 0); (num_of_Z 1, num_of_Z 1)].

End QuadReading.

(** A surface over the reals with a position method only. *)
Definition saddle : Surface R unit :=
  mkSurface None (Some (fun u v w => ((u, v, (u * v)%R), w))) None.

(** * Properties *)

(** ** Loops *)

Section Loops.

Context {S : Type}.

Lemma for_upto_invariant (P : S -> Prop) (body : Z -> S -> S) :
  (forall i s, P s -> P (body i s)) ->
  forall n lo s, P s -> P (for_upto n lo body s).
Proof.
  intros Hbody n. induction n as [|n IH]; intros lo s Hs; simpl; auto.
Qed.

Lemma for_upto_related (R : S -> S -> Prop) (body : Z -> S -> S) :
  (forall i s s', R s s' -> R (body i s) (body i s')) ->
  forall n lo s s', R s s' -> R (for_upto n lo body s) (for_upto n lo body s').
Proof.
  intros Hbody n. induction n as [|n IH]; intros lo s s' Hs; simpl; auto.
Qed.

(** A loop whose body appends [vals i] to a list the state is related
    to has appended the [vals] of its whole range. *)
Lemma for_upto_appends {A : Type} (R : S -> list A -> Prop)
    (body : Z -> S -> S) (vals : Z -> list A) :
  (forall i s l, R s l -> R (body i s) (l ++ vals i)) ->
  forall n lo s l, R s l ->
    R (for_upto n lo body s) (l ++ flat_map vals (seqZ lo (Z.of_nat n))).
Proof.
  intros Hbody n. induction n as [|n IH]; intros lo s l Hs.
  - simpl. rewrite app_nil_r. exact Hs.
  - rewrite seqZ_cons by lia. simpl.
    replace (Z.pred (Z.of_nat (Datatypes.S n))) with (Z.of_nat n) by lia.
    rewrite app_assoc. apply IH, Hbody, Hs.
Qed.

Lemma for_le_appends {A : Type} (R : S -> list A -> Prop)
    (body : Z -> S -> S) (vals : Z -> list A) (lo hi : Z) :
  (forall i s l, R s l -> R (body i s) (l ++ vals i)) ->
  forall s l, R s l ->
    R (for_le lo hi body s) (l ++ flat_map vals (seqZ lo (hi + 1 - lo))).
Proof.
  intros Hbody s l Hs. unfold for_le.
  replace (seqZ lo (hi + 1 - lo))
    with (seqZ lo (Z.of_nat (Z.to_nat (hi + 1 - lo)))).
  - apply for_upto_appends; assumption.
  - unfold seqZ. now rewrite Nat2Z.id.
Qed.

Lemma for_le_empty (body : Z -> S -> S) (lo hi : Z) (s : S) :
  (hi < lo)%Z -> for_le lo hi body s = s.
Proof.
  intros Hlt. unfold for_le.
  replace (Z.to_nat (hi + 1 - lo)) with 0%nat by lia. reflexivity.
Qed.

End Loops.

(** ** Lists cut in chunks of one size *)

Section Chunks.

Context {A B : Type}.
Variables (f : B -> list A) (c : nat).
Hypothesis f_length : forall x, length (f x) = c.

Lemma length_flat_map_uniform (l : list B) :
  length (flat_map f l) = (c * length l)%nat.
Proof.
  induction l as [|x l IH]; simpl.
  - lia.
  - rewrite length_app, f_length, IH. lia.
Qed.

Lemma drop_flat_map_uniform (k : nat) (l : list B) :
  drop (c * k) (flat_map f l) = flat_map f (drop k l).
Proof.
  revert l. induction k as [|k IH]; intros l.
  - now rewrite Nat.mul_0_r.
  - destruct l as [|x l]; simpl.
    + now rewrite drop_nil.
    + replace (c * Datatypes.S k)%nat with (length (f x) + c * k)%nat
        by (rewrite f_length; lia).
      rewrite drop_app_add. apply IH.
Qed.

Lemma chunk_flat_map (k : nat) (l : list B) (x : B) :
  l !! k = Some x ->
  take c (drop (c * k) (flat_map f l)) = f x.
Proof.
  intros Hk. rewrite drop_flat_map_uniform, (drop_S _ _ _ Hk). simpl.
  apply take_app_length'. now rewrite f_length.
Qed.

End Chunks.

Lemma lookup_seqZ_from_1 (n i : Z) :
  (1 <= i <= n)%Z -> seqZ 1 n !! Z.to_nat (i - 1) = Some i.
Proof.
  intros Hi. rewrite lookup_seqZ. split; [lia|lia].
Qed.

Lemma chunk_grid {A : Type} (vals : Z -> Z -> list A) (c : nat) (M N i j : Z) :
  (forall i j, length (vals i j) = c) ->
  (1 <= i <= M)%Z -> (1 <= j <= N)%Z ->
  take c (drop (c * Z.to_nat ((i - 1) * N + (j - 1)))
            (flat_map (fun i => flat_map (vals i) (seqZ 1 N)) (seqZ 1 M)))
  = vals i j.
Proof.
  intros Hlen Hi Hj.
  set (row := fun i => flat_map (vals i) (seqZ 1 N)).
  assert (Hrow : forall i, length (row i) = (c * Z.to_nat N)%nat).
  { intros i'. unfold row.
    rewrite (length_flat_map_uniform _ c) by apply Hlen.
    now rewrite length_seqZ. }
  replace (c * Z.to_nat ((i - 1) * N + (j - 1)))%nat
    with (c * Z.to_nat N * Z.to_nat (i - 1) + c * Z.to_nat (j - 1))%nat.
  2:{ rewrite Z2Nat.inj_add, Z2Nat.inj_mul by nia. ring. }
  rewrite <- drop_drop.
  rewrite (drop_flat_map_uniform row (c * Z.to_nat N) Hrow).
  rewrite (drop_S _ _ _ (lookup_seqZ_from_1 M i Hi)). simpl.
  assert (Hin : (c * Z.to_nat (j - 1) + c <= c * Z.to_nat N)%nat).
  { assert (Hle : (Datatypes.S (Z.to_nat (j - 1)) <= Z.to_nat N)%nat) by lia.
    apply (Nat.mul_le_mono_l _ _ c) in Hle. lia. }
  rewrite drop_app_le by (rewrite Hrow; lia).
  rewrite take_app_le.
  - unfold row. apply (chunk_flat_map _ c (Hlen i)).
    now apply lookup_seqZ_from_1.
  - rewrite length_drop, Hrow. lia.
Qed.

Lemma vertices_of_patch_grid {A : Type} (vals : Z -> Z -> list A)
    (comps : nat) (M N i j : Z) :
  (forall i j, length (vals i j) = (6 * comps)%nat) ->
  (1 <= i <= M)%Z -> (1 <= j <= N)%Z ->
  vertices_of_patch comps N i j
    (flat_map (fun i => flat_map (vals i) (seqZ 1 N)) (seqZ 1 M))
  = vals i j.
Proof.
  intros Hlen Hi Hj. unfold vertices_of_patch. now apply chunk_grid.
Qed.

Lemma length_grid_list {A : Type} (vals : Z -> Z -> list A) (c : nat) (M N : Z) :
  (forall i j, length (vals i j) = c) ->
  length (flat_map (fun i => flat_map (vals i) (seqZ 1 N)) (seqZ 1 M))
  = (c * Z.to_nat N * Z.to_nat M)%nat.
Proof.
  intros Hlen.
  rewrite (length_flat_map_uniform _ (c * Z.to_nat N)).
  - now rewrite length_seqZ.
  - intros i. rewrite (length_flat_map_uniform _ c) by apply Hlen.
    now rewrite length_seqZ.
Qed.

(** ** Output arrays and their cursors *)

Section Cursors.

Context {F : Type} {numF : Number F}.

Lemma length_arr_store (x : F) (c : Cursor F) :
  length (arr (store x c)) = length (arr c).
Proof. unfold store. simpl. apply length_insert. Qed.

Lemma tracks_new (cap : nat) :
  tracks (mkCursor (replicate cap (num_of_Z 0)) 0) [] cap.
Proof.
  split; [|reflexivity]. simpl.
  rewrite take_ge; [reflexivity|]. now rewrite length_replicate.
Qed.

Lemma tracks_store (x : F) (c : Cursor F) (l : list F) (cap : nat) :
  tracks c l cap -> tracks (store x c) (l ++ [x]) cap.
Proof.
  intros [Harr Hidx]. split.
  2:{ simpl. rewrite Hidx, length_app. simpl. lia. }
  unfold store. simpl. rewrite Harr, Hidx.
  destruct (decide (length l < cap)%nat) as [Hlt|Hge].
  - rewrite <- take_insert_lt by assumption.
    replace (length l) with (length l + 0)%nat at 1 by lia.
    rewrite insert_app_r, <- app_assoc.
    rewrite !take_app_ge by lia.
    destruct (cap - length l)%nat as [|k] eqn:Hk; [lia|].
    destruct cap as [|cap]; [lia|]. simpl.
    change (num_of_Z 0 :: replicate cap (num_of_Z 0))
      with (replicate (Datatypes.S cap) (num_of_Z 0)).
    rewrite !take_replicate. do 3 f_equal. lia.
  - rewrite list_insert_ge by (rewrite length_take; lia).
    rewrite !take_app_le by (rewrite ?length_app; lia). reflexivity.
Qed.

Lemma tracks_stores (xs : list F) (c : Cursor F) (l : list F) (cap : nat) :
  tracks c l cap -> tracks (stores xs c) (l ++ xs) cap.
Proof.
  unfold stores. revert c l. induction xs as [|x xs IH]; intros c l Hc; simpl.
  - now rewrite app_nil_r.
  - replace (l ++ x :: xs) with ((l ++ [x]) ++ xs) by now rewrite <- app_assoc.
    apply IH, tracks_store, Hc.
Qed.

Lemma tracks_full (c : Cursor F) (l : list F) (cap : nat) :
  tracks c l cap -> length l = cap -> arr c = l.
Proof.
  intros [Harr _] Hlen. rewrite Harr. now apply take_app_length'.
Qed.

End Cursors.

(** ** The tessellator *)

Section Tessellator.

Context {F : Type} {numF : Number F}.
Variable count_vertices : string -> DataType -> Z -> Float32Array F -> Z.
Context {W : Type}.
Variable obj : Surface F W.

Local Open Scope num_scope.

Ltac run_makeVertex uu vv w :=
  unfold makeVertex;
  let w1 := fresh "w" in
  let w2 := fresh "w" in
  let w3 := fresh "w" in
  let Et := fresh "Et" in
  let Ep := fresh "Ep" in
  let En := fresh "En" in
  destruct (texCoord obj) as [?f|];
    [destruct (_ uu vv w) as [[?t0 ?t1] w1] eqn:Et|pose (w1 := w)];
  (destruct (position obj) as [?f|];
    [destruct (_ uu vv w1) as [[[?p0 ?p1] ?p2] w2] eqn:Ep|pose (w2 := w1)]);
  (destruct (normal obj) as [?f|];
    [destruct (_ uu vv w2) as [[[?n0 ?n1] ?n2] w3] eqn:En|pose (w3 := w2)]).

(** What one call of [makeVertex] does to each output array, when
    the method that feeds the array is pure. *)

Lemma makeVertex_vtexcoord T uu vv color st :
  pure_as (texCoord obj) T ->
  vtexcoord (makeVertex obj uu vv color st).1
  = stores (emitted (texCoord obj) vec2_list T uu vv) (vtexcoord st.1).
Proof.
  unfold pure_as, emitted. intros Hpure. destruct st as [g w].
  run_makeVertex uu vv w;
    try (specialize (Hpure uu vv w); rewrite Et in Hpure;
         simpl in Hpure; rewrite <- Hpure);
    destruct color as [[[c0 c1] c2]|]; reflexivity.
Qed.

Lemma makeVertex_vposition P uu vv color st :
  pure_as (position obj) P ->
  vposition (makeVertex obj uu vv color st).1
  = stores (emitted (position obj) vec3_list P uu vv) (vposition st.1).
Proof.
  unfold pure_as, emitted. intros Hpure. destruct st as [g w].
  run_makeVertex uu vv w;
    try (match type of Ep with _ _ _ ?w' = _ => specialize (Hpure uu vv w') end;
         rewrite Ep in Hpure; simpl in Hpure; rewrite <- Hpure);
    destruct color as [[[c0 c1] c2]|]; reflexivity.
Qed.

Lemma makeVertex_vnormal Nm uu vv color st :
  pure_as (normal obj) Nm ->
  vnormal (makeVertex obj uu vv color st).1
  = stores (emitted (normal obj) vec3_list Nm uu vv) (vnormal st.1).
Proof.
  unfold pure_as, emitted. intros Hpure. destruct st as [g w].
  run_makeVertex uu vv w;
    try (match type of En with _ _ _ ?w' = _ => specialize (Hpure uu vv w') end;
         rewrite En in Hpure; simpl in Hpure; rewrite <- Hpure);
    destruct color as [[[c0 c1] c2]|]; reflexivity.
Qed.

Lemma makeVertex_vcolor uu vv color st :
  vcolor (makeVertex obj uu vv color st).1
  = stores (color_list color) (vcolor st.1).
Proof.
  destruct st as [g w].
  run_makeVertex uu vv w; destruct color as [[[c0 c1] c2]|]; reflexivity.
Qed.

(** The arrays keep the length they were allocated with. *)

Lemma makeVertex_lengths uu vv color st :
  lengths_of (makeVertex obj uu vv color st).1 = lengths_of st.1.
Proof.
  destruct st as [g w].
  run_makeVertex uu vv w; destruct color as [[[c0 c1] c2]|];
    unfold lengths_of; simpl; rewrite ?length_insert; reflexivity.
Qed.

Lemma GenState_eq (a b : GenState F) :
  vposition a = vposition b -> vnormal a = vnormal b ->
  vcolor a = vcolor b -> vtexcoord a = vtexcoord b -> a = b.
Proof. destruct a, b; simpl; congruence. Qed.

Lemma pure_option_as {A : Type} (o : option (F -> F -> W -> A * W))
    (dflt : F -> F -> A) :
  pure_option o -> exists g, pure_as o g.
Proof.
  destruct o as [f|]; simpl; [auto|]. intros _. now exists dflt.
Qed.

(** With pure methods the arrays do not depend on the state the
    methods run in. *)
Lemma makeVertex_pure uu vv color st st' :
  pure_surface obj -> st.1 = st'.1 ->
  (makeVertex obj uu vv color st).1 = (makeVertex obj uu vv color st').1.
Proof.
  intros (Ht & Hp & Hn) Hst.
  destruct (pure_option_as _ origin2 Ht) as [T HT].
  destruct (pure_option_as _ origin3 Hp) as [P HP].
  destruct (pure_option_as _ origin3 Hn) as [Nm HN].
  apply GenState_eq.
  - now rewrite !(makeVertex_vposition P), Hst.
  - now rewrite !(makeVertex_vnormal Nm), Hst.
  - now rewrite !makeVertex_vcolor, Hst.
  - now rewrite !(makeVertex_vtexcoord T), Hst.
Qed.

(** *** The grid walk *)

Variables (M N : Z) (umin umax vmin vmax : F) (col1 col2 : option (vec3 F)).

Local Abbreviation values_of_patch :=
  (patch_values M N umin umax vmin vmax col1 col2).
Local Abbreviation initial := (initial_state M N).
Local Abbreviation final := (final_state obj M N umin umax vmin vmax col1 col2).
Local Abbreviation result :=
  (result_shape count_vertices obj M N umin umax vmin vmax col1 col2).
Local Abbreviation attach := (attached count_vertices).

Section OneArray.

Variable proj : GenState F -> Cursor F.
Variable vals : F -> F -> option (vec3 F) -> list F.
Hypothesis makeVertex_proj : forall uu vv color st,
  proj (makeVertex obj uu vv color st).1 = stores (vals uu vv color) (proj st.1).

Lemma patch_stores i j st :
  proj (patch obj M N umin umax vmin vmax col1 col2 i j st).1
  = stores (values_of_patch vals i j) (proj st.1).
Proof.
  unfold patch, patch_values. rewrite !makeVertex_proj.
  unfold stores. now rewrite !foldl_app.
Qed.

Lemma grid_tracks st l cap :
  tracks (proj st.1) l cap ->
  tracks (proj (grid obj M N umin umax vmin vmax col1 col2 st).1)
    (l ++ flat_map (fun i => flat_map (values_of_patch vals i) (seqZ 1 N)) (seqZ 1 M))
    cap.
Proof.
  intros Hl. unfold grid.
  replace (seqZ 1 M) with (seqZ 1 (M + 1 - 1)) by (f_equal; lia).
  apply (for_le_appends (fun st l => tracks (proj st.1) l cap)); [|exact Hl].
  intros i s l' Hs.
  replace (seqZ 1 N) with (seqZ 1 (N + 1 - 1)) by (f_equal; lia).
  apply (for_le_appends (fun st l => tracks (proj st.1) l cap)); [|exact Hs].
  intros j s' l'' Hs'. rewrite patch_stores. now apply tracks_stores.
Qed.

End OneArray.

Lemma patch_lengths i j st :
  lengths_of (patch obj M N umin umax vmin vmax col1 col2 i j st).1
  = lengths_of st.1.
Proof. unfold patch. now rewrite !makeVertex_lengths. Qed.

Lemma grid_lengths st :
  lengths_of (grid obj M N umin umax vmin vmax col1 col2 st).1 = lengths_of st.1.
Proof.
  unfold grid, for_le.
  apply (for_upto_invariant (fun s => lengths_of s.1 = lengths_of st.1));
    [|reflexivity].
  intros i s Hs.
  apply (for_upto_invariant (fun s => lengths_of s.1 = lengths_of st.1));
    [|exact Hs].
  intros j s' Hs'. now rewrite patch_lengths.
Qed.

Lemma patch_pure i j st st' :
  pure_surface obj -> st.1 = st'.1 ->
  (patch obj M N umin umax vmin vmax col1 col2 i j st).1
  = (patch obj M N umin umax vmin vmax col1 col2 i j st').1.
Proof.
  intros Hpure Hst. unfold patch.
  repeat (apply makeVertex_pure; [exact Hpure|]). exact Hst.
Qed.

Lemma grid_pure st st' :
  pure_surface obj -> st.1 = st'.1 ->
  (grid obj M N umin umax vmin vmax col1 col2 st).1
  = (grid obj M N umin umax vmin vmax col1 col2 st').1.
Proof.
  intros Hpure Hst. unfold grid, for_le.
  apply (for_upto_related (fun s s' => s.1 = s'.1)); [|exact Hst].
  intros i s s' Hs.
  apply (for_upto_related (fun s s' => s.1 = s'.1)); [|exact Hs].
  intros j t t' Ht. now apply patch_pure.
Qed.

(** With no row or no column the loops do not run the patch body. *)
Lemma grid_empty st :
  (M <= 0 \/ N <= 0)%Z ->
  grid obj M N umin umax vmin vmax col1 col2 st = st.
Proof.
  intros [HM|HN]; unfold grid.
  - apply for_le_empty. lia.
  - unfold for_le at 1.
    apply (for_upto_invariant (fun s => s = st)); [|reflexivity].
    intros i s ->. apply for_le_empty. lia.
Qed.

(** *** The whole call *)

Lemma GenerateParametricSurface_normal env :
  (0 <= M * N)%Z ->
  exists console',
    GenerateParametricSurface count_vertices obj M N umin umax vmin vmax col1 col2 env
    = Normal (result (world env), mkEnv (final (world env)).2 console').
Proof.
  intros Hpos.
  assert (H3 : (M * N * 6 * 3 <? 0)%Z = false) by lia.
  assert (H2 : (M * N * 6 * 2 <? 0)%Z = false) by lia.
  unfold result_shape, final_state, initial_state, zeros.
  unfold GenerateParametricSurface, new_Float32Array, mbind, JS_bind, mret, JS_ret,
    in_world, throw.
  rewrite H3, H2. simpl.
  destruct (grid _ _ _ _ _ _ _ _ _ _) as [g w'].
  unfold addVertexAttribute, console_log, mbind, JS_bind, mret, JS_ret.
  destruct (position obj), (normal obj), (texCoord obj), col1, col2; simpl;
    repeat match goal with
           | |- context [negb ?b] => destruct b; simpl
           end;
    eexists; reflexivity.
Qed.

Lemma GenerateParametricSurface_throws env :
  (M * N < 0)%Z ->
  GenerateParametricSurface count_vertices obj M N umin umax vmin vmax col1 col2 env
  = Throw RangeError.
Proof.
  intros Hneg.
  assert (H3 : (M * N * 6 * 3 <? 0)%Z = true) by lia.
  unfold GenerateParametricSurface, new_Float32Array, mbind, JS_bind, throw.
  now rewrite H3.
Qed.

(** What the shape carries under each of the four names. *)

Lemma stream_vertexPosition w :
  stream (result w) "vertexPosition"
  = if position obj is Some _ then arr (vposition (final w).1) else [].
Proof.
  unfold stream, result_shape, attached.
  destruct (position obj), (normal obj), (texCoord obj), (both col1 col2);
    reflexivity.
Qed.

Lemma stream_vertexNormal w :
  stream (result w) "vertexNormal"
  = if normal obj is Some _ then arr (vnormal (final w).1) else [].
Proof.
  unfold stream, result_shape, attached.
  destruct (position obj), (normal obj), (texCoord obj), (both col1 col2);
    reflexivity.
Qed.

Lemma stream_vertexTexCoord w :
  stream (result w) "vertexTexCoord"
  = if texCoord obj is Some _ then arr (vtexcoord (final w).1) else [].
Proof.
  unfold stream, result_shape, attached.
  destruct (position obj), (normal obj), (texCoord obj), (both col1 col2);
    reflexivity.
Qed.

Lemma stream_vertexColor w :
  stream (result w) "vertexColor"
  = if both col1 col2 is Some _ then arr (vcolor (final w).1) else [].
Proof.
  unfold stream, result_shape, attached.
  destruct (position obj), (normal obj), (texCoord obj), (both col1 col2);
    reflexivity.
Qed.

Lemma final_lengths w :
  lengths_of (final w).1
  = (Z.to_nat (M * N * 6 * 3), Z.to_nat (M * N * 6 * 3),
     Z.to_nat (M * N * 6 * 3), Z.to_nat (M * N * 6 * 2)).
Proof.
  unfold final_state. rewrite grid_lengths.
  unfold lengths_of, initial_state, zeros. simpl.
  now rewrite !length_replicate.
Qed.

Lemma final_length_vposition w :
  length (arr (vposition (final w).1)) = Z.to_nat (M * N * 6 * 3).
Proof. pose proof (final_lengths w) as H. unfold lengths_of in H. congruence. Qed.

Lemma final_length_vnormal w :
  length (arr (vnormal (final w).1)) = Z.to_nat (M * N * 6 * 3).
Proof. pose proof (final_lengths w) as H. unfold lengths_of in H. congruence. Qed.

Lemma final_length_vcolor w :
  length (arr (vcolor (final w).1)) = Z.to_nat (M * N * 6 * 3).
Proof. pose proof (final_lengths w) as H. unfold lengths_of in H. congruence. Qed.

Lemma final_length_vtexcoord w :
  length (arr (vtexcoord (final w).1)) = Z.to_nat (M * N * 6 * 2).
Proof. pose proof (final_lengths w) as H. unfold lengths_of in H. congruence. Qed.

(** The content of an array when the loops are left: the values of
    the patches, row after row. *)
Lemma final_array (proj : GenState F -> Cursor F)
    (vals : F -> F -> option (vec3 F) -> list F) (comps : nat) (w : W) :
  (forall uu vv color st,
     proj (makeVertex obj uu vv color st).1 = stores (vals uu vv color) (proj st.1)) ->
  proj initial
  = mkCursor (zeros (M * N * 6 * Z.of_nat comps)) 0 ->
  (forall i j, length (values_of_patch vals i j) = (6 * comps)%nat) ->
  (0 <= M)%Z -> (0 <= N)%Z ->
  arr (proj (final w).1)
  = flat_map (fun i => flat_map (values_of_patch vals i) (seqZ 1 N)) (seqZ 1 M).
Proof.
  intros Hproj Hinit Hlen HM HN.
  apply (tracks_full _ _ (Z.to_nat (M * N * 6 * Z.of_nat comps))).
  - unfold final_state.
    apply (grid_tracks proj vals Hproj (initial, w) []). simpl.
    rewrite Hinit. apply tracks_new.
  - rewrite (length_grid_list _ (6 * comps)) by exact Hlen.
    rewrite !Z2Nat.inj_mul by lia. rewrite Nat2Z.id.
    change (Z.to_nat 6) with 6%nat. lia.
Qed.

Lemma makeVertex_traced uu vv color (st : GenState F * (W * list (MethodCall (F:=F)))) :
  (makeVertex (traced obj) uu vv color st).2.2 = st.2.2 ++ calls_at obj uu vv.
Proof.
  destruct st as [g [w log]]. unfold makeVertex, traced, calls_at, traced_method.
  simpl.
  destruct (texCoord obj) as [ft|], (position obj) as [fp|],
    (normal obj) as [fn|]; simpl;
    repeat match goal with
           | |- context [ft uu vv ?x] =>
               destruct (ft uu vv x) as [[? ?] ?]; simpl
           | |- context [fp uu vv ?x] =>
               destruct (fp uu vv x) as [[[? ?] ?] ?]; simpl
           | |- context [fn uu vv ?x] =>
               destruct (fn uu vv x) as [[[? ?] ?] ?]; simpl
           end;
    destruct color as [[[c0 c1] c2]|]; simpl;
    rewrite <- ?app_assoc, ?app_nil_r; reflexivity.
Qed.

Lemma patch_traced i j (st : GenState F * (W * list (MethodCall (F:=F)))) :
  (patch (traced obj) M N umin umax vmin vmax col1 col2 i j st).2.2
  = st.2.2 ++ values_of_patch (fun uu vv _ => calls_at obj uu vv) i j.
Proof.
  unfold patch, patch_values. rewrite !makeVertex_traced.
  now rewrite <- !app_assoc.
Qed.

Lemma grid_traced (st : GenState F * (W * list (MethodCall (F:=F)))) :
  (grid (traced obj) M N umin umax vmin vmax col1 col2 st).2.2
  = st.2.2
    ++ flat_map (fun i =>
         flat_map (values_of_patch (fun uu vv _ => calls_at obj uu vv) i)
           (seqZ 1 N))
       (seqZ 1 M).
Proof.
  unfold grid.
  replace (seqZ 1 M) with (seqZ 1 (M + 1 - 1)) by (f_equal; lia).
  apply (for_le_appends
           (fun (s : GenState F * (W * list MethodCall)) l => s.2.2 = l));
    [|reflexivity].
  intros i s l <-.
  replace (seqZ 1 N) with (seqZ 1 (N + 1 - 1)) by (f_equal; lia).
  apply (for_le_appends
           (fun (s : GenState F * (W * list MethodCall)) l => s.2.2 = l));
    [|reflexivity].
  intros j s' l' <-. apply patch_traced.
Qed.

(** The array of an absent attribute is allocated, never written and
    never attached: when the loops are left it is as it was created,
    its index at 0. *)
Lemma final_untouched (proj : GenState F -> Cursor F) (w : W) :
  (forall i j st,
     proj (patch obj M N umin umax vmin vmax col1 col2 i j st).1 = proj st.1) ->
  proj (final w).1 = proj initial.
Proof.
  intros Hproj. unfold final_state, grid, for_le.
  apply (for_upto_invariant (fun s => proj s.1 = proj initial)); [|reflexivity].
  intros i s Hs.
  apply (for_upto_invariant (fun s => proj s.1 = proj initial)); [|exact Hs].
  intros j s' Hs'. now rewrite Hproj.
Qed.

Lemma final_vposition_absent w :
  position obj = None -> vposition (final w).1 = vposition initial.
Proof.
  intros Hnone. apply final_untouched. intros i j st.
  rewrite (patch_stores vposition
             (fun uu vv _ => emitted (position obj) vec3_list origin3 uu vv)).
  - unfold patch_values, emitted. now rewrite Hnone.
  - intros. apply makeVertex_vposition. unfold pure_as. now rewrite Hnone.
Qed.

Lemma final_vnormal_absent w :
  normal obj = None -> vnormal (final w).1 = vnormal initial.
Proof.
  intros Hnone. apply final_untouched. intros i j st.
  rewrite (patch_stores vnormal
             (fun uu vv _ => emitted (normal obj) vec3_list origin3 uu vv)).
  - unfold patch_values, emitted. now rewrite Hnone.
  - intros. apply makeVertex_vnormal. unfold pure_as. now rewrite Hnone.
Qed.

Lemma final_vtexcoord_absent w :
  texCoord obj = None -> vtexcoord (final w).1 = vtexcoord initial.
Proof.
  intros Hnone. apply final_untouched. intros i j st.
  rewrite (patch_stores vtexcoord
             (fun uu vv _ => emitted (texCoord obj) vec2_list origin2 uu vv)).
  - unfold patch_values, emitted. now rewrite Hnone.
  - intros. apply makeVertex_vtexcoord. unfold pure_as. now rewrite Hnone.
Qed.

(** The color array when the loops are left, for any two color
    arguments: the colors of the patches, six times each, where the
    color of the patch is defined. *)
Lemma final_vcolor_tracks w :
  tracks (vcolor (final w).1)
    (flat_map (fun i =>
       flat_map (values_of_patch (fun _ _ color => color_list color) i) (seqZ 1 N))
       (seqZ 1 M))
    (Z.to_nat (M * N * 6 * 3)).
Proof.
  unfold final_state.
  apply (grid_tracks vcolor (fun _ _ color => color_list color)
           (fun uu vv color st => makeVertex_vcolor uu vv color st)
           (initial, w) []).
  apply tracks_new.
Qed.

Lemma final_vcolor_absent w :
  col1 = None -> col2 = None -> vcolor (final w).1 = vcolor initial.
Proof.
  intros Hc1 Hc2. apply final_untouched. intros i j st.
  rewrite (patch_stores vcolor (fun _ _ color => color_list color)).
  - unfold patch_values. rewrite Hc1, Hc2.
    now destruct (Z.rem (i + j) 2 =? 0)%Z.
  - intros. apply makeVertex_vcolor.
Qed.

End Tessellator.

(** ** Properties of [GenerateParametricSurface] *)

Section TessellatorTheorems.

Context {F : Type} {numF : Number F}.
Variable count_vertices : string -> DataType -> Z -> Float32Array F -> Z.
Context {W : Type}.

Local Open Scope num_scope.

Lemma stream_nil_of_empty_buffers (shape : VertexBasedShape F) (name : string) :
  Forall (fun b => dataArray b = []) (vertexBuffers shape) ->
  stream shape name = [].
Proof.
  unfold stream. intros Hall.
  destruct (List.find _ _) as [b|] eqn:Hfind; [|reflexivity].
  apply List.find_some in Hfind as [Hin _].
  rewrite Forall_forall in Hall. apply Hall. now apply list_elem_of_In.
Qed.

Lemma Forall_attached {A : Type} (P : VertexAttributeBuffer F -> Prop)
    (o : option A) (name : string) (comps : Z) (data : Float32Array F) :
  P (new_VertexAttributeBuffer count_vertices name FLOAT comps data) ->
  Forall P (attached count_vertices o name comps data).
Proof. intros HP. destruct o; simpl; auto. Qed.

(** C1. For M, N >= 1 the call returns a shape that declares M*N*6
    vertices; under each of the four attribute names the shape carries
    either nothing (attribute absent) or exactly M*N*6 times the
    attribute's component count numbers (3 for position, normal and
    color, 2 for texture coordinates), and every buffer attached has
    M*N*6 times its own component count. *)
Theorem GenerateParametricSurface_vertex_count
    (obj : Surface F W) (M N : Z) (umin umax vmin vmax : F)
    (col1 col2 : option (vec3 F)) (env : Env W) :
  (1 <= M)%Z -> (1 <= N)%Z ->
  exists shape env',
    GenerateParametricSurface count_vertices obj M N umin umax vmin vmax col1 col2 env
    = Normal (shape, env')
    /\ numVertices shape = (M * N * 6)%Z
    /\ Z.of_nat (length (stream shape "vertexPosition"))
       = (if position obj is Some _ then M * N * 6 * 3 else 0)%Z
    /\ Z.of_nat (length (stream shape "vertexNormal"))
       = (if normal obj is Some _ then M * N * 6 * 3 else 0)%Z
    /\ Z.of_nat (length (stream shape "vertexTexCoord"))
       = (if texCoord obj is Some _ then M * N * 6 * 2 else 0)%Z
    /\ Z.of_nat (length (stream shape "vertexColor"))
       = (if both col1 col2 is Some _ then M * N * 6 * 3 else 0)%Z
    /\ Forall (fun b => Z.of_nat (length (dataArray b))
                        = (M * N * 6 * numElements b)%Z)
         (vertexBuffers shape).
Proof.
  intros HM HN.
  destruct (GenerateParametricSurface_normal count_vertices obj M N
              umin umax vmin vmax col1 col2 env) as [console' Hrun]; [nia|].
  eexists _, _. split; [exact Hrun|].
  split; [reflexivity|].
  rewrite stream_vertexPosition, stream_vertexNormal, stream_vertexTexCoord,
    stream_vertexColor.
  repeat split.
  - destruct (position obj); [|reflexivity].
    rewrite final_length_vposition. nia.
  - destruct (normal obj); [|reflexivity].
    rewrite final_length_vnormal. nia.
  - destruct (texCoord obj); [|reflexivity].
    rewrite final_length_vtexcoord. nia.
  - destruct (both col1 col2); [|reflexivity].
    rewrite final_length_vcolor. nia.
  - unfold result_shape. simpl.
    repeat (apply Forall_app; split); apply Forall_attached; simpl.
    + rewrite final_length_vposition. nia.
    + rewrite final_length_vnormal. nia.
    + rewrite final_length_vtexcoord. nia.
    + rewrite final_length_vcolor. nia.
Qed.

(** C4. The shape gets a buffer exactly for the attributes supplied
    (position, normal and texCoord when the surface defines the
    method, color when both colors are given), in this order, and
    carries nothing under the name of an absent attribute.  In
    particular, for M = 2, N = 1 and a surface that defines position
    only, with no colors, the shape has the single buffer
    "vertexPosition", of exactly 36 numbers. *)
Theorem GenerateParametricSurface_attaches_supplied
    (obj : Surface F W) (M N : Z) (umin umax vmin vmax : F)
    (col1 col2 : option (vec3 F)) (env : Env W) :
  (0 <= M * N)%Z ->
  exists shape env',
    GenerateParametricSurface count_vertices obj M N umin umax vmin vmax col1 col2 env
    = Normal (shape, env')
    /\ map attrType (vertexBuffers shape)
       = (if position obj is Some _ then ["vertexPosition"%string] else [])
         ++ (if normal obj is Some _ then ["vertexNormal"%string] else [])
         ++ (if texCoord obj is Some _ then ["vertexTexCoord"%string] else [])
         ++ (if col1 is Some _
             then if col2 is Some _ then ["vertexColor"%string] else []
             else [])
    /\ (position obj = None -> stream shape "vertexPosition" = [])
    /\ (normal obj = None -> stream shape "vertexNormal" = [])
    /\ (texCoord obj = None -> stream shape "vertexTexCoord" = [])
    /\ (col1 = None \/ col2 = None -> stream shape "vertexColor" = [])
    /\ (M = 2%Z -> N = 1%Z -> is_Some (position obj) ->
        normal obj = None -> texCoord obj = None ->
        col1 = None -> col2 = None ->
        map attrType (vertexBuffers shape) = ["vertexPosition"%string]
        /\ length (stream shape "vertexPosition") = 36%nat
        /\ has_buffer shape "vertexNormal" = false
        /\ has_buffer shape "vertexTexCoord" = false
        /\ has_buffer shape "vertexColor" = false).
Proof.
  intros Hpos.
  destruct (GenerateParametricSurface_normal count_vertices obj M N
              umin umax vmin vmax col1 col2 env Hpos) as [console' Hrun].
  eexists _, _. split; [exact Hrun|].
  rewrite stream_vertexPosition, stream_vertexNormal, stream_vertexTexCoord,
    stream_vertexColor.
  split; [|split; [|split; [|split; [|split]]]].
  - unfold result_shape, attached. simpl.
    destruct (position obj), (normal obj), (texCoord obj), col1, col2; reflexivity.
  - now intros ->.
  - now intros ->.
  - now intros ->.
  - intros [->| ->]; [reflexivity|]. now destruct col1.
  - intros -> -> [f Hf] Hn Ht -> ->.
    rewrite Hf.
    rewrite (final_length_vposition obj 2 1).
    unfold has_buffer, result_shape, attached. simpl.
    rewrite Hf, Hn, Ht. simpl. auto.
Qed.

(** C5. With M = 0 or N = 0 the call returns: the shape declares 0
    vertices, every buffer attached to it is of length 0, it carries
    nothing under any name, and no method of the surface has run (the
    world is as it was). *)
Theorem GenerateParametricSurface_degenerate
    (obj : Surface F W) (M N : Z) (umin umax vmin vmax : F)
    (col1 col2 : option (vec3 F)) (env : Env W) :
  M = 0%Z \/ N = 0%Z ->
  exists shape env',
    GenerateParametricSurface count_vertices obj M N umin umax vmin vmax col1 col2 env
    = Normal (shape, env')
    /\ numVertices shape = 0%Z
    /\ Forall (fun b => dataArray b = []) (vertexBuffers shape)
    /\ (forall name, stream shape name = [])
    /\ world env' = world env.
Proof.
  intros Hzero.
  assert (Hprod : (M * N = 0)%Z) by (destruct Hzero as [-> | ->]; lia).
  destruct (GenerateParametricSurface_normal count_vertices obj M N
              umin umax vmin vmax col1 col2 env) as [console' Hrun]; [lia|].
  assert (Hbuffers : Forall (fun b => dataArray b = [])
            (vertexBuffers (result_shape count_vertices obj M N
                              umin umax vmin vmax col1 col2 (world env)))).
  { unfold result_shape. simpl.
    repeat (apply Forall_app; split); apply Forall_attached; simpl;
      apply length_zero_iff_nil.
    - rewrite final_length_vposition. lia.
    - rewrite final_length_vnormal. lia.
    - rewrite final_length_vtexcoord. lia.
    - rewrite final_length_vcolor. lia. }
  eexists _, _. split; [exact Hrun|].
  split; [simpl; lia|].
  split; [exact Hbuffers|].
  split; [intros name; now apply stream_nil_of_empty_buffers|].
  simpl. unfold final_state. rewrite grid_empty; [reflexivity|lia].
Qed.

(** C7. For a surface whose methods are pure, the result of the call
    (the shape with all its attribute arrays, or the error) is the
    same from any two environments; in particular a second call with
    the same arguments, made after the first one returned, returns an
    identical shape. *)
Theorem GenerateParametricSurface_deterministic
    (obj : Surface F W) (M N : Z) (umin umax vmin vmax : F)
    (col1 col2 : option (vec3 F)) :
  pure_surface obj ->
  (forall env1 env2,
     value_of (GenerateParametricSurface count_vertices obj M N
                 umin umax vmin vmax col1 col2 env1)
     = value_of (GenerateParametricSurface count_vertices obj M N
                   umin umax vmin vmax col1 col2 env2))
  /\ (forall env shape1 env1,
        GenerateParametricSurface count_vertices obj M N
          umin umax vmin vmax col1 col2 env = Normal (shape1, env1) ->
        exists env2,
          GenerateParametricSurface count_vertices obj M N
            umin umax vmin vmax col1 col2 env1 = Normal (shape1, env2)).
Proof.
  intros Hpure.
  assert (Hany : forall env1 env2,
     value_of (GenerateParametricSurface count_vertices obj M N
                 umin umax vmin vmax col1 col2 env1)
     = value_of (GenerateParametricSurface count_vertices obj M N
                   umin umax vmin vmax col1 col2 env2)).
  { intros env1 env2.
    destruct (Z.lt_ge_cases (M * N) 0) as [Hneg|Hpos].
    - now rewrite !GenerateParametricSurface_throws.
    - destruct (GenerateParametricSurface_normal count_vertices obj M N
                  umin umax vmin vmax col1 col2 env1 Hpos) as [c1 ->].
      destruct (GenerateParametricSurface_normal count_vertices obj M N
                  umin umax vmin vmax col1 col2 env2 Hpos) as [c2 ->].
      simpl. f_equal. unfold result_shape.
      assert (Hfinal : (final_state obj M N umin umax vmin vmax col1 col2
                          (world env1)).1
                       = (final_state obj M N umin umax vmin vmax col1 col2
                            (world env2)).1).
      { unfold final_state. now apply grid_pure. }
      now rewrite Hfinal. }
  split; [exact Hany|].
  intros env shape1 env1 Hrun.
  specialize (Hany env env1). rewrite Hrun in Hany. simpl in Hany.
  destruct (GenerateParametricSurface _ _ _ _ _ _ _ _ _ _ env1) as [[s2 env2]|e];
    simpl in Hany; [|discriminate].
  injection Hany as ->. now exists env2.
Qed.

Lemma length_calls_at (obj : Surface F W) (uu vv : F) :
  length (calls_at obj uu vv) = defined_methods obj.
Proof.
  unfold calls_at, defined_methods.
  destruct (texCoord obj), (position obj), (normal obj); reflexivity.
Qed.

(** C2. For a patch (i, j) with 1 <= i <= M and 1 <= j <= N, with
    u0 = umin + (i-1)*(umax-umin)/M, u = umin + i*(umax-umin)/M,
    v0 = vmin + (j-1)*(vmax-vmin)/N, v = vmin + j*(vmax-vmin)/N:
    - whatever the methods of the surface do, the calls made for the
      patch are those of six vertices, at (u0,v), (u0,v0), (u,v0) and
      then at (u,v), (u0,v), (u,v0), in this order (the methods of
      the traced surface note their calls);
    - in each array the surface feeds with a pure method, the six
      vertices of the patch are the values of the method at these
      six points, in this order. *)
Theorem GenerateParametricSurface_patch_vertices
    (obj : Surface F W) (M N : Z) (umin umax vmin vmax : F)
    (col1 col2 : option (vec3 F)) (env : Env W)
    (tenv : Env (W * list (MethodCall (F:=F)))) (i j : Z) :
  (1 <= i <= M)%Z -> (1 <= j <= N)%Z ->
  let u0 := umin + (num_of_Z i - num_of_Z 1) * (umax - umin) / num_of_Z M in
  let u := umin + num_of_Z i * (umax - umin) / num_of_Z M in
  let v0 := vmin + (num_of_Z j - num_of_Z 1) * (vmax - vmin) / num_of_Z N in
  let v := vmin + num_of_Z j * (vmax - vmin) / num_of_Z N in
  (exists shape env' calls,
     GenerateParametricSurface count_vertices (traced obj) M N
       umin umax vmin vmax col1 col2 tenv = Normal (shape, env')
     /\ (world env').2 = (world tenv).2 ++ calls
     /\ vertices_of_patch (defined_methods obj) N i j calls
        = calls_at obj u0 v ++ calls_at obj u0 v0 ++ calls_at obj u v0
          ++ calls_at obj u v ++ calls_at obj u0 v ++ calls_at obj u v0)
  /\ exists shape env',
    GenerateParametricSurface count_vertices obj M N umin umax vmin vmax col1 col2 env
    = Normal (shape, env')
    /\ numVertices shape = (M * N * 6)%Z
    /\ (forall f P, position obj = Some f -> pure_method f P ->
        vertices_of_patch 3 N i j (stream shape "vertexPosition")
        = vec3_list (P u0 v) ++ vec3_list (P u0 v0) ++ vec3_list (P u v0)
          ++ vec3_list (P u v) ++ vec3_list (P u0 v) ++ vec3_list (P u v0))
    /\ (forall f Nm, normal obj = Some f -> pure_method f Nm ->
        vertices_of_patch 3 N i j (stream shape "vertexNormal")
        = vec3_list (Nm u0 v) ++ vec3_list (Nm u0 v0) ++ vec3_list (Nm u v0)
          ++ vec3_list (Nm u v) ++ vec3_list (Nm u0 v) ++ vec3_list (Nm u v0))
    /\ (forall f T, texCoord obj = Some f -> pure_method f T ->
        vertices_of_patch 2 N i j (stream shape "vertexTexCoord")
        = vec2_list (T u0 v) ++ vec2_list (T u0 v0) ++ vec2_list (T u v0)
          ++ vec2_list (T u v) ++ vec2_list (T u0 v) ++ vec2_list (T u v0)).
Proof.
  intros Hi Hj u0 u v0 v. split.
  { destruct (GenerateParametricSurface_normal count_vertices (traced obj) M N
                umin umax vmin vmax col1 col2 tenv) as [console' Hrun]; [nia|].
    eexists _, _, _. split; [exact Hrun|]. split.
    - simpl. unfold final_state. rewrite grid_traced. reflexivity.
    - rewrite vertices_of_patch_grid; [reflexivity| |lia|lia].
      intros i' j'. unfold patch_values.
      rewrite !length_app, !length_calls_at. lia. }
  destruct (GenerateParametricSurface_normal count_vertices obj M N
              umin umax vmin vmax col1 col2 env) as [console' Hrun]; [nia|].
  eexists _, _. split; [exact Hrun|]. split; [reflexivity|].
  rewrite stream_vertexPosition, stream_vertexNormal, stream_vertexTexCoord.
  split; [|split].
  - intros f P Hf Hpure. rewrite Hf.
    rewrite (final_array obj M N umin umax vmin vmax col1 col2 vposition
               (fun uu vv _ => emitted (position obj) vec3_list P uu vv) 3).
    + rewrite vertices_of_patch_grid; [|intros; now rewrite Hf|lia|lia].
      unfold patch_values, emitted. now rewrite Hf.
    + intros. apply makeVertex_vposition. unfold pure_as. now rewrite Hf.
    + reflexivity.
    + intros. now rewrite Hf.
    + lia.
    + lia.
  - intros f Nm Hf Hpure. rewrite Hf.
    rewrite (final_array obj M N umin umax vmin vmax col1 col2 vnormal
               (fun uu vv _ => emitted (normal obj) vec3_list Nm uu vv) 3).
    + rewrite vertices_of_patch_grid; [|intros; now rewrite Hf|lia|lia].
      unfold patch_values, emitted. now rewrite Hf.
    + intros. apply makeVertex_vnormal. unfold pure_as. now rewrite Hf.
    + reflexivity.
    + intros. now rewrite Hf.
    + lia.
    + lia.
  - intros f T Hf Hpure. rewrite Hf.
    rewrite (final_array obj M N umin umax vmin vmax col1 col2 vtexcoord
               (fun uu vv _ => emitted (texCoord obj) vec2_list T uu vv) 2).
    + rewrite vertices_of_patch_grid; [|intros; now rewrite Hf|lia|lia].
      unfold patch_values, emitted. now rewrite Hf.
    + intros. apply makeVertex_vtexcoord. unfold pure_as. now rewrite Hf.
    + reflexivity.
    + intros. now rewrite Hf.
    + lia.
    + lia.
Qed.

(** C3. With both colors given, the color of the patch (i, j) is the
    first color when (i + j) mod 2 = 0 and the second one otherwise,
    and each of the six vertices of the patch carries that color. *)
Theorem GenerateParametricSurface_checkerboard
    (obj : Surface F W) (M N : Z) (umin umax vmin vmax : F)
    (color1 color2 : vec3 F) (env : Env W) (i j : Z) :
  (1 <= i <= M)%Z -> (1 <= j <= N)%Z ->
  exists shape env',
    GenerateParametricSurface count_vertices obj M N umin umax vmin vmax
      (Some color1) (Some color2) env
    = Normal (shape, env')
    /\ vertices_of_patch 3 N i j (stream shape "vertexColor")
       = concat (replicate 6
           (vec3_list (if ((i + j) mod 2 =? 0)%Z then color1 else color2))).
Proof.
  intros Hi Hj.
  destruct (GenerateParametricSurface_normal count_vertices obj M N
              umin umax vmin vmax (Some color1) (Some color2) env)
    as [console' Hrun]; [nia|].
  eexists _, _. split; [exact Hrun|].
  rewrite stream_vertexColor. simpl.
  rewrite (final_array obj M N umin umax vmin vmax (Some color1) (Some color2)
             vcolor (fun _ _ color => color_list color) 3).
  - rewrite vertices_of_patch_grid; [| |lia|lia].
    + unfold patch_values. rewrite Z.rem_mod_nonneg by lia.
      destruct ((i + j) mod 2 =? 0)%Z; reflexivity.
    + intros i' j'. unfold patch_values.
      destruct (Z.rem (i' + j') 2 =? 0)%Z; reflexivity.
  - intros. apply makeVertex_vcolor.
  - reflexivity.
  - intros i' j'. unfold patch_values.
    destruct (Z.rem (i' + j') 2 =? 0)%Z; reflexivity.
  - lia.
  - lia.
Qed.

End TessellatorTheorems.

(** ** Properties of [addVertexAttribute] *)

Section ShapeTheorems.

Context {F : Type} {numF : Number F}.
Variable count_vertices : string -> DataType -> Z -> Float32Array F -> Z.
Context {W : Type}.

Lemma addVertexAttribute_match (this : VertexBasedShape F)
    (attrType : string) (dataType : DataType) (numElements : Z)
    (dataArray : Float32Array F) (env : Env W) :
  let buf := new_VertexAttributeBuffer count_vertices attrType dataType
               numElements dataArray in
  numVertices this = buf_numVertices buf ->
  addVertexAttribute count_vertices this attrType dataType numElements dataArray env
  = Normal (mkShape (vertexBuffers this ++ [buf]) (elementBuffer this)
              (primitiveType this) (numVertices this), env).
Proof.
  intros buf Heq. subst buf. unfold addVertexAttribute. simpl in *.
  rewrite (proj2 (Z.eqb_eq _ _) Heq). reflexivity.
Qed.

(** C6. When the vertex count of the new buffer differs from the
    number of vertices the shape declares, [addVertexAttribute]
    returns normally: the buffer is appended to [vertexBuffers], the
    rest of the shape is unchanged, and one warning line is written
    to the console. *)
Theorem addVertexAttribute_mismatch (this : VertexBasedShape F)
    (attrType : string) (dataType : DataType) (numElements : Z)
    (dataArray : Float32Array F) (env : Env W) :
  let buf := new_VertexAttributeBuffer count_vertices attrType dataType
               numElements dataArray in
  numVertices this <> buf_numVertices buf ->
  addVertexAttribute count_vertices this attrType dataType numElements dataArray env
  = Normal (mkShape (vertexBuffers this ++ [buf]) (elementBuffer this)
              (primitiveType this) (numVertices this),
            mkEnv (world env)
              (console env
               ++ [wrong_number_warning (buf_numVertices buf) (numVertices this)
                     attrType])).
Proof.
  intros buf Hne. subst buf. unfold addVertexAttribute. simpl in *.
  rewrite (proj2 (Z.eqb_neq _ _) Hne). reflexivity.
Qed.

End ShapeTheorems.

(** ** Properties of [Torus] *)

Section TorusTheorems.

Local Open Scope R_scope.

(** C8. In exact real arithmetic the torus of radius 2 and tube
    radius 0.5 has position (2.5, 0, 0) at (t, p) = (0, 0) and
    (0, 2.5, 0) at (t, p) = (PI/2, 0). *)
Theorem Torus_position_values (w : Globals R) :
  (Torus_position (mkTorus 2 0.5) 0 0 w).1 = (2.5, 0, 0)
  /\ (Torus_position (mkTorus 2 0.5) (PI / 2) 0 w).1 = (0, 2.5, 0).
Proof.
  unfold Torus_position.
  cbn [fst snd radius radius2 num_add num_mul Math_cos Math_sin Number_R JSMath_R].
  rewrite cos_0, sin_0, cos_PI2, sin_PI2.
  split; repeat f_equal; lra.
Qed.

(** C10. For every torus and every (t, p), whatever the global [h]
    held before the call, the normal is
    (cos t * cos p, sin t * cos p, sin p), a vector of Euclidean
    length 1 in exact real arithmetic: [h] is set to 1 before it is
    read. *)
Theorem Torus_normal_unit (this : TorusObject R) (t p : R) (w : Globals R) :
  let '((x, y, z), w') := Torus_normal this t p w in
  (x, y, z) = (cos t * cos p, sin t * cos p, sin p)
  /\ sqrt (x * x + y * y + z * z) = 1
  /\ h w' = 1.
Proof.
  unfold Torus_normal.
  cbn [fst snd h num_of_Z num_mul Math_cos Math_sin Number_R JSMath_R].
  rewrite !Rmult_1_r.
  split; [|split].
  - reflexivity.
  - replace (cos t * cos p * (cos t * cos p) + sin t * cos p * (sin t * cos p)
             + sin p * sin p)
      with ((sin t * sin t + cos t * cos t) * (cos p * cos p) + sin p * sin p)
      by ring.
    pose proof (sin2_cos2 t) as Ht. pose proof (sin2_cos2 p) as Hp.
    unfold Rsqr in Ht, Hp. rewrite Ht, Rmult_1_l.
    rewrite Rplus_comm, Hp. apply sqrt_1.
  - reflexivity.
Qed.

End TorusTheorems.

(** ** Properties of [Sphere] *)

Section SphereTheorems.

Context {F : Type} {numF : Number F} {mathF : JSMath F}.
Variable count_vertices : string -> DataType -> Z -> Float32Array F -> Z.
Variable vec3_normalize : vec3 F -> vec3 F.

Lemma Sphere_patch_cList r N M c1 c2 i j st :
  cList (Sphere_patch vec3_normalize r N M c1 c2 i j st).1
  = cList st.1 ++ concat (replicate 6 (vec3_list (Sphere_patch_color c1 c2 i j))).
Proof.
  destruct st as [l w]. unfold Sphere_patch.
  repeat match goal with
         | |- context [vec3_normalize ?v] =>
             destruct (vec3_normalize v) as [[? ?] ?]
         end.
  cbn [fst cList]. unfold for_lt, Sphere_patch_color. simpl for_upto.
  unfold Sphere_colors.
  destruct (Z.rem i 2 + Z.rem j 2 =? 1)%Z; simpl;
    rewrite <- !app_assoc; reflexivity.
Qed.

Lemma Sphere_grid_cList r N M c1 c2 st :
  cList (Sphere_grid vec3_normalize r N M c1 c2 st).1
  = cList st.1
    ++ flat_map (fun i =>
         flat_map (fun j => concat (replicate 6
                     (vec3_list (Sphere_patch_color c1 c2 i j))))
           (seqZ 1 M))
       (seqZ 1 N).
Proof.
  unfold Sphere_grid.
  replace (seqZ 1 N) with (seqZ 1 (N + 1 - 1)) by (f_equal; lia).
  apply (for_le_appends (fun st l => cList st.1 = l)); [|reflexivity].
  intros i s l <-.
  replace (seqZ 1 M) with (seqZ 1 (M + 1 - 1)) by (f_equal; lia).
  apply (for_le_appends (fun st l => cList st.1 = l)); [|reflexivity].
  intros j s' l' <-. apply Sphere_patch_cList.
Qed.

Lemma Sphere_normal r N M c1 c2 env :
  let final := Sphere_grid vec3_normalize r N M c1 c2
                 (mkSphereLists [] [] [] [], world env) in
  exists console',
    Sphere count_vertices vec3_normalize r N M c1 c2 env
    = Normal
        (mkShape
           [new_VertexAttributeBuffer count_vertices "vertexPosition" FLOAT 3
              (vList final.1);
            new_VertexAttributeBuffer count_vertices "vertexColor" FLOAT 3
              (cList final.1);
            new_VertexAttributeBuffer count_vertices "vertexNormal" FLOAT 3
              (nList final.1);
            new_VertexAttributeBuffer count_vertices "vertexTexCoord" FLOAT 2
              (tList final.1)]
           None TRIANGLES (Z.of_nat (length (vList final.1)) / 3)%Z,
         mkEnv final.2 console').
Proof.
  intros final. subst final.
  unfold Sphere, mbind, JS_bind, mret, JS_ret, in_world.
  destruct (Sphere_grid _ _ _ _ _ _ _) as [l w']. simpl.
  unfold addVertexAttribute, console_log, mbind, JS_bind, mret, JS_ret. simpl.
  repeat match goal with
         | |- context [negb ?b] => destruct b; simpl
         end;
    eexists; reflexivity.
Qed.

(** The sphere's rule is the tessellator's with the two colors
    exchanged. *)
Lemma Sphere_rule_opposite (i j : Z) :
  (1 <= i)%Z -> (1 <= j)%Z ->
  (Z.rem i 2 + Z.rem j 2 =? 1)%Z = negb (Z.rem (i + j) 2 =? 0)%Z.
Proof.
  intros Hi Hj. rewrite !Z.rem_mod_nonneg by lia.
  pose proof (Z.mod_pos_bound i 2). pose proof (Z.mod_pos_bound j 2).
  rewrite (Z.add_mod i j 2) by lia.
  assert (Hcases : (i mod 2 = 0 \/ i mod 2 = 1)%Z) by lia.
  assert (Hcases' : (j mod 2 = 0 \/ j mod 2 = 1)%Z) by lia.
  destruct Hcases as [-> | ->], Hcases' as [-> | ->]; reflexivity.
Qed.

(** C9. [Sphere] walks its own grid, rows i = 1..N of patches
    j = 1..M, and attaches its four buffers itself (position, color,
    normal, texture coordinates, in this order).  The six vertices of
    the patch (i, j) all carry the first color when
    i mod 2 + j mod 2 = 1 and the second color otherwise. *)
Theorem Sphere_checkerboard (r : F) (N M : Z) (c1 c2 : vec3 F)
    (env : Env (Globals F)) (i j : Z) :
  (1 <= i <= N)%Z -> (1 <= j <= M)%Z ->
  exists shape env',
    Sphere count_vertices vec3_normalize r N M c1 c2 env = Normal (shape, env')
    /\ map attrType (vertexBuffers shape)
       = ["vertexPosition"; "vertexColor"; "vertexNormal"; "vertexTexCoord"]%string
    /\ vertices_of_patch 3 M i j (stream shape "vertexColor")
       = concat (replicate 6
           (vec3_list (if (i mod 2 + j mod 2 =? 1)%Z then c1 else c2))).
Proof.
  intros Hi Hj.
  destruct (Sphere_normal r N M c1 c2 env) as [console' Hrun].
  eexists _, _. split; [exact Hrun|]. split; [reflexivity|].
  unfold stream. simpl.
  rewrite Sphere_grid_cList. simpl.
  rewrite vertices_of_patch_grid; [|reflexivity|lia|lia].
  unfold Sphere_patch_color. now rewrite !Z.rem_mod_nonneg by lia.
Qed.

End SphereTheorems.

(** ** Worked instances *)

Example plane_1x1 :
  value_of (GenerateParametricSurface length_per_element plane 1 1
              0%Q 1%Q 0%Q 1%Q None None (start tt))
  = Normal
      (mkShape
         [mkVertexAttributeBuffer "vertexPosition" FLOAT 3
            [0%Q; 1%Q; 0%Q;  0%Q; 0%Q; 0%Q;  1%Q; 0%Q; 0%Q;
             1%Q; 1%Q; 0%Q;  0%Q; 1%Q; 0%Q;  1%Q; 0%Q; 0%Q] 6]
         None TRIANGLES 6).
Proof. vm_compute. reflexivity. Qed.

Example plane_colors_1x2 :
  match GenerateParametricSurface length_per_element plane 1 2
          0%Q 1%Q 0%Q 1%Q (Some red) (Some blue) (start tt) with
  | Normal (shape, env') =>
      stream shape "vertexColor"
      = concat (replicate 6 (vec3_list red)) ++ concat (replicate 6 (vec3_list blue))
      /\ console env' = []
  | Throw _ => False
  end.
Proof. vm_compute. split; reflexivity. Qed.

Example negative_grid_throws :
  GenerateParametricSurface length_per_element plane (-1) 1
    0%Q 1%Q 0%Q 1%Q None None (start tt) = Throw RangeError.
Proof. vm_compute. reflexivity. Qed.

(** A method that is not pure: the second of two calls with the same
    arguments yields other arrays than the first. *)
Example counting_not_deterministic :
  match GenerateParametricSurface length_per_element counting 1 1
          0%Q 1%Q 0%Q 1%Q None None (start 0%Z) with
  | Normal (shape1, env1) =>
      match GenerateParametricSurface length_per_element counting 1 1
              0%Q 1%Q 0%Q 1%Q None None env1 with
      | Normal (shape2, _) =>
          stream shape1 "vertexPosition" <> stream shape2 "vertexPosition"
      | Throw _ => False
      end
  | Throw _ => False
  end.
Proof. vm_compute. discriminate. Qed.

Example mismatch_warning :
  GenerateParametricSurface (fun _ _ _ _ => 7%Z) plane 1 1
    0%Q 1%Q 0%Q 1%Q None None (start tt)
  = Normal
      (mkShape
         [mkVertexAttributeBuffer "vertexPosition" FLOAT 3
            [0%Q; 1%Q; 0%Q;  0%Q; 0%Q; 0%Q;  1%Q; 0%Q; 0%Q;
             1%Q; 1%Q; 0%Q;  0%Q; 1%Q; 0%Q;  1%Q; 0%Q; 0%Q] 7]
         None TRIANGLES 6,
       mkEnv tt
         ["Warning: wrong number of vertices (7 instead of 6) for attribute vertexPosition"%string]).
Proof. vm_compute. reflexivity. Qed.

Lemma Torus_surface_pure {F : Type} {numF : Number F} {mathF : JSMath F}
    (this : TorusObject F) :
  pure_surface (Torus_surface this).
Proof.
  repeat split; simpl.
  - exists (fun u v => (Torus_texCoord this u v (mkGlobals u u u)).1).
    intros u v w. reflexivity.
  - exists (fun t p => (Torus_position this t p (mkGlobals t t t)).1).
    intros t p w. reflexivity.
  - exists (fun t p => (Torus_normal this t p (mkGlobals t t t)).1).
    intros t p w. reflexivity.
Qed.

Lemma GenerateParametricSurface_vertex_count_witness :
  (1 <= 2)%Z /\ (1 <= 1)%Z
  /\ exists shape env',
       GenerateParametricSurface length_per_element plane 2 1
         0%Q 1%Q 0%Q 1%Q None None (start tt) = Normal (shape, env')
       /\ numVertices shape = 12%Z
       /\ length (stream shape "vertexPosition") = 36%nat
       /\ length (stream shape "vertexNormal") = 0%nat.
Proof.
  split; [lia|]. split; [lia|].
  destruct (GenerateParametricSurface_vertex_count length_per_element plane 2 1
              0%Q 1%Q 0%Q 1%Q None None (start tt))
    as (shape & env' & Hrun & Hn & Hp & Hnor & _); [lia|lia|].
  exists shape, env'. split; [exact Hrun|]. split; [exact Hn|].
  simpl in Hp, Hnor. lia.
Defined.

Lemma GenerateParametricSurface_patch_vertices_witness :
  (1 <= 2 <= 2)%Z /\ (1 <= 1 <= 1)%Z
  /\ let u0 := (0 + (inject_Z 2 - inject_Z 1) * (1 - 0) / inject_Z 2)%Q in
     let u := (0 + inject_Z 2 * (1 - 0) / inject_Z 2)%Q in
     let v0 := (0 + (inject_Z 1 - inject_Z 1) * (1 - 0) / inject_Z 1)%Q in
     let v := (0 + inject_Z 1 * (1 - 0) / inject_Z 1)%Q in
     (exists shape env' calls,
        GenerateParametricSurface length_per_element (traced plane) 2 1
          0%Q 1%Q 0%Q 1%Q None None (start (tt, [])) = Normal (shape, env')
        /\ (world env').2 = calls
        /\ vertices_of_patch 1 1 2 1 calls
           = [("position"%string, u0, v); ("position"%string, u0, v0);
              ("position"%string, u, v0); ("position"%string, u, v);
              ("position"%string, u0, v); ("position"%string, u, v0)])
     /\ exists shape env',
          GenerateParametricSurface length_per_element plane 2 1
            0%Q 1%Q 0%Q 1%Q None None (start tt) = Normal (shape, env')
          /\ vertices_of_patch 3 1 2 1 (stream shape "vertexPosition")
             = [u0; v; 0%Q;  u0; v0; 0%Q;  u; v0; 0%Q;
                u; v; 0%Q;  u0; v; 0%Q;  u; v0; 0%Q].
Proof.
  split; [lia|]. split; [lia|].
  destruct (GenerateParametricSurface_patch_vertices length_per_element plane 2 1
              0%Q 1%Q 0%Q 1%Q None None (start tt) (start (tt, [])) 2 1)
    as [(tshape & tenv' & calls & Htrun & Hlog & Hcalls)
        (shape & env' & Hrun & _ & Hp & _)]; [lia|lia|].
  split.
  - exists tshape, tenv', calls. split; [exact Htrun|]. split; [exact Hlog|].
    exact Hcalls.
  - exists shape, env'. split; [exact Hrun|].
    apply (Hp _ (fun u v => (u, v, 0%Q)) eq_refl).
    intros u v w. reflexivity.
Defined.

Lemma GenerateParametricSurface_checkerboard_witness :
  (1 <= 1 <= 1)%Z /\ (1 <= 2 <= 2)%Z
  /\ exists shape env',
       GenerateParametricSurface length_per_element plane 1 2
         0%Q 1%Q 0%Q 1%Q (Some red) (Some blue) (start tt) = Normal (shape, env')
       /\ vertices_of_patch 3 2 1 2 (stream shape "vertexColor")
          = concat (replicate 6 (vec3_list blue)).
Proof.
  split; [lia|]. split; [lia|].
  destruct (GenerateParametricSurface_checkerboard length_per_element plane 1 2
              0%Q 1%Q 0%Q 1%Q red blue (start tt) 1 2)
    as (shape & env' & Hrun & Hc); [lia|lia|].
  exists shape, env'. split; [exact Hrun|exact Hc].
Defined.

Lemma GenerateParametricSurface_attaches_supplied_witness :
  (0 <= 2 * 1)%Z
  /\ exists shape env',
       GenerateParametricSurface length_per_element plane 2 1
         0%Q 1%Q 0%Q 1%Q None None (start tt) = Normal (shape, env')
       /\ map attrType (vertexBuffers shape) = ["vertexPosition"%string]
       /\ length (stream shape "vertexPosition") = 36%nat
       /\ has_buffer shape "vertexNormal" = false
       /\ has_buffer shape "vertexTexCoord" = false
       /\ has_buffer shape "vertexColor" = false.
Proof.
  split; [lia|].
  destruct (GenerateParametricSurface_attaches_supplied length_per_element plane 2 1
              0%Q 1%Q 0%Q 1%Q None None (start tt))
    as (shape & env' & Hrun & _ & _ & _ & _ & _ & Hcase); [lia|].
  exists shape, env'. split; [exact Hrun|].
  apply Hcase; try reflexivity. simpl. eauto.
Defined.

Lemma GenerateParametricSurface_degenerate_witness :
  (0 = 0 \/ 3 = 0)%Z
  /\ exists shape env',
       GenerateParametricSurface length_per_element plane 0 3
         0%Q 1%Q 0%Q 1%Q (Some red) (Some blue) (start tt) = Normal (shape, env')
       /\ numVertices shape = 0%Z
       /\ stream shape "vertexPosition" = []
       /\ stream shape "vertexColor" = [].
Proof.
  split; [left; reflexivity|].
  destruct (GenerateParametricSurface_degenerate length_per_element plane 0 3
              0%Q 1%Q 0%Q 1%Q (Some red) (Some blue) (start tt))
    as (shape & env' & Hrun & Hn & _ & Hs & _); [left; reflexivity|].
  exists shape, env'. split; [exact Hrun|]. split; [exact Hn|].
  split; apply Hs.
Defined.

Lemma addVertexAttribute_mismatch_witness :
  (6 <> 1)%Z
  /\ addVertexAttribute length_per_element (new_VertexBasedShape TRIANGLES 6)
       "vertexPosition" FLOAT 3 [1%Q; 2%Q; 3%Q] (start tt)
     = Normal
         (mkShape [mkVertexAttributeBuffer "vertexPosition" FLOAT 3 [1%Q; 2%Q; 3%Q] 1]
            None TRIANGLES 6,
          mkEnv tt
            ["Warning: wrong number of vertices (1 instead of 6) for attribute vertexPosition"%string]).
Proof.
  split; [lia|].
  apply (addVertexAttribute_mismatch length_per_element
           (new_VertexBasedShape TRIANGLES 6) "vertexPosition" FLOAT 3
           [1%Q; 2%Q; 3%Q] (start tt)).
  vm_compute. lia.
Defined.

Lemma GenerateParametricSurface_deterministic_witness :
  pure_surface (Torus_surface (mkTorus 2%R (1 / 2)%R))
  /\ value_of (Torus length_per_element 2%R (1 / 2)%R 3 4 None None
                 (start (mkGlobals 0%R 0%R 0%R)))
     = value_of (Torus length_per_element 2%R (1 / 2)%R 3 4 None None
                   (start (mkGlobals 5%R 1%R 2%R))).
Proof.
  split; [apply Torus_surface_pure|].
  apply (GenerateParametricSurface_deterministic length_per_element
           (Torus_surface (mkTorus 2%R (1 / 2)%R))).
  apply Torus_surface_pure.
Defined.

Lemma Sphere_checkerboard_witness :
  (1 <= 1 <= 2)%Z /\ (1 <= 2 <= 2)%Z
  /\ exists shape env',
       Sphere length_per_element (fun v => v) 1%R 2 2
         (1%R, 0%R, 0%R) (0%R, 0%R, 1%R) (start (mkGlobals 0%R 0%R 0%R))
       = Normal (shape, env')
       /\ vertices_of_patch 3 2 1 2 (stream shape "vertexColor")
          = concat (replicate 6 [1%R; 0%R; 0%R]).
Proof.
  split; [lia|]. split; [lia|].
  destruct (Sphere_checkerboard length_per_element (fun v => v) 1%R 2 2
              (1%R, 0%R, 0%R) (0%R, 0%R, 1%R) (start (mkGlobals 0%R 0%R 0%R)) 1 2)
    as (shape & env' & Hrun & _ & Hc); [lia|lia|].
  exists shape, env'. split; [exact Hrun|exact Hc].
Defined.

(** * Further properties *)

(** ** The tessellator: errors, cost and console *)

Section TessellatorMore.

Context {F : Type} {numF : Number F}.
Variable count_vertices : string -> DataType -> Z -> Float32Array F -> Z.
Context {W : Type}.

Local Open Scope num_scope.


Lemma Forall_attached_zeros {A : Type} (M N : Z)
    (o : option A) (name : string) (comps : Z) (data : Float32Array F) :
  data = zeros (M * N * 6 * comps) ->
  Forall (fun b => dataArray b
                   = replicate (Z.to_nat (M * N * 6 * numElements b)) (num_of_Z 0))
    (attached count_vertices o name comps data).
Proof.
  intros Hc. destruct o; simpl; [|constructor].
  constructor; [|constructor]. simpl. exact Hc.
Qed.

(** X2. With M and N both negative the product is positive and the
    loops do not run: the call returns a shape that declares
    M*N*6 > 0 vertices, every buffer attached is filled with zeros,
    and no method of the surface has been called. *)
Theorem GenerateParametricSurface_negative_grid
    (obj : Surface F W) (M N : Z) (umin umax vmin vmax : F)
    (col1 col2 : option (vec3 F)) (env : Env W) :
  (M < 0)%Z -> (N < 0)%Z ->
  exists shape env',
    GenerateParametricSurface count_vertices obj M N umin umax vmin vmax col1 col2 env
    = Normal (shape, env')
    /\ numVertices shape = (M * N * 6)%Z
    /\ (0 < numVertices shape)%Z
    /\ Forall (fun b => dataArray b
                        = replicate (Z.to_nat (M * N * 6 * numElements b))
                            (num_of_Z 0))
         (vertexBuffers shape)
    /\ world env' = world env.
Proof.
  intros HM HN.
  destruct (GenerateParametricSurface_normal count_vertices obj M N
              umin umax vmin vmax col1 col2 env) as [console' Hrun]; [nia|].
  assert (Hfinal : final_state obj M N umin umax vmin vmax col1 col2 (world env)
                   = (initial_state M N, world env)).
  { unfold final_state. apply grid_empty. lia. }
  eexists _, _. split; [exact Hrun|].
  split; [reflexivity|]. split; [simpl; nia|]. split.
  - unfold result_shape. rewrite Hfinal. cbn [vertexBuffers fst].
    repeat (apply Forall_app; split);
      apply Forall_attached_zeros; reflexivity.
  - simpl. now rewrite Hfinal.
Qed.

End TessellatorMore.

Section TessellatorCost.

Context {F : Type} {numF : Number F}.
Variable count_vertices : string -> DataType -> Z -> Float32Array F -> Z.
Context {W : Type}.

Local Open Scope num_scope.

Lemma length_filter_flat_map_uniform {A B : Type} (P : A -> Prop)
    `{forall x, Decision (P x)} (f : B -> list A) (c : nat) (l : list B) :
  (forall x, length (filter P (f x)) = c) ->
  length (filter P (flat_map f l)) = (c * length l)%nat.
Proof.
  intros Hc. induction l as [|x l IH]; simpl.
  - lia.
  - rewrite filter_app, length_app, Hc, IH. lia.
Qed.

Lemma calls_of_calls_at (obj : Surface F W) (uu vv : F) :
  length (calls_of "texCoord" (calls_at obj uu vv))
  = (if texCoord obj is Some _ then 1 else 0)%nat
  /\ length (calls_of "position" (calls_at obj uu vv))
     = (if position obj is Some _ then 1 else 0)%nat
  /\ length (calls_of "normal" (calls_at obj uu vv))
     = (if normal obj is Some _ then 1 else 0)%nat.
Proof.
  unfold calls_of, calls_at.
  destruct (texCoord obj), (position obj), (normal obj); repeat split.
Qed.

Lemma calls_of_grid (obj : Surface F W) (M N : Z) (umin umax vmin vmax : F)
    (col1 col2 : option (vec3 F)) (name : string) (c : nat) :
  (forall uu vv, length (calls_of name (calls_at obj uu vv)) = c) ->
  length (calls_of name
            (flat_map (fun i =>
               flat_map (patch_values M N umin umax vmin vmax col1 col2
                           (fun uu vv _ => calls_at obj uu vv) i)
                 (seqZ 1 N))
               (seqZ 1 M)))
  = (6 * c * Z.to_nat N * Z.to_nat M)%nat.
Proof.
  intros Hc. unfold calls_of in *.
  rewrite (length_filter_flat_map_uniform _ _ (6 * c * Z.to_nat N)).
  - now rewrite length_seqZ.
  - intros i. rewrite (length_filter_flat_map_uniform _ _ (6 * c)).
    + now rewrite length_seqZ.
    + intros j. unfold patch_values.
      rewrite !filter_app, !length_app, !Hc. lia.
Qed.

(** X3. For M, N >= 0 each method the surface defines is called
    exactly 6*M*N times, once for each vertex emitted: grid points
    shared by several triangles are evaluated again for each of them.
    (The methods of the traced surface note their calls.) *)
Theorem GenerateParametricSurface_call_counts
    (obj : Surface F W) (M N : Z) (umin umax vmin vmax : F)
    (col1 col2 : option (vec3 F)) (tenv : Env (W * list (MethodCall (F:=F)))) :
  (0 <= M)%Z -> (0 <= N)%Z ->
  exists shape env' calls,
    GenerateParametricSurface count_vertices (traced obj) M N
      umin umax vmin vmax col1 col2 tenv = Normal (shape, env')
    /\ (world env').2 = (world tenv).2 ++ calls
    /\ Z.of_nat (length (calls_of "texCoord" calls))
       = (if texCoord obj is Some _ then 6 * M * N else 0)%Z
    /\ Z.of_nat (length (calls_of "position" calls))
       = (if position obj is Some _ then 6 * M * N else 0)%Z
    /\ Z.of_nat (length (calls_of "normal" calls))
       = (if normal obj is Some _ then 6 * M * N else 0)%Z.
Proof.
  intros HM HN.
  destruct (GenerateParametricSurface_normal count_vertices (traced obj) M N
              umin umax vmin vmax col1 col2 tenv) as [console' Hrun]; [nia|].
  eexists _, _, _. split; [exact Hrun|]. split.
  { simpl. unfold final_state. rewrite grid_traced. reflexivity. }
  repeat split.
  - rewrite (calls_of_grid obj M N umin umax vmin vmax col1 col2 "texCoord"
               (if texCoord obj is Some _ then 1 else 0)).
    + destruct (texCoord obj); nia.
    + intros uu vv. apply calls_of_calls_at.
  - rewrite (calls_of_grid obj M N umin umax vmin vmax col1 col2 "position"
               (if position obj is Some _ then 1 else 0)).
    + destruct (position obj); nia.
    + intros uu vv. apply calls_of_calls_at.
  - rewrite (calls_of_grid obj M N umin umax vmin vmax col1 col2 "normal"
               (if normal obj is Some _ then 1 else 0)).
    + destruct (normal obj); nia.
    + intros uu vv. apply calls_of_calls_at.
Qed.

Lemma exact_counter_attach (shape : VertexBasedShape F) (name : string)
    (comps : Z) (data : Float32Array F) (env : Env W) :
  exact_counter count_vertices ->
  (0 < comps)%Z ->
  Z.of_nat (length data) = (numVertices shape * comps)%Z ->
  addVertexAttribute count_vertices shape name FLOAT comps data env
  = Normal (mkShape (vertexBuffers shape
                     ++ [new_VertexAttributeBuffer count_vertices name FLOAT comps data])
              (elementBuffer shape) (primitiveType shape) (numVertices shape), env).
Proof.
  intros Hexact Hcomps Hlen. apply addVertexAttribute_match. simpl.
  symmetry. now apply Hexact.
Qed.

(** X4. When the buffer constructor counts exactly, the tessellator
    writes nothing to the console: every array it attaches has the
    number of vertices the shape declares. *)
Theorem GenerateParametricSurface_no_warning
    (obj : Surface F W) (M N : Z) (umin umax vmin vmax : F)
    (col1 col2 : option (vec3 F)) (env : Env W) :
  exact_counter count_vertices ->
  (0 <= M * N)%Z ->
  exists shape env',
    GenerateParametricSurface count_vertices obj M N umin umax vmin vmax col1 col2 env
    = Normal (shape, env')
    /\ console env' = console env.
Proof.
  intros Hexact Hpos.
  assert (H3 : (M * N * 6 * 3 <? 0)%Z = false) by lia.
  assert (H2 : (M * N * 6 * 2 <? 0)%Z = false) by lia.
  pose proof (final_length_vposition obj M N umin umax vmin vmax col1 col2
                (world env)) as Lp.
  pose proof (final_length_vnormal obj M N umin umax vmin vmax col1 col2
                (world env)) as Ln.
  pose proof (final_length_vcolor obj M N umin umax vmin vmax col1 col2
                (world env)) as Lc.
  pose proof (final_length_vtexcoord obj M N umin umax vmin vmax col1 col2
                (world env)) as Lt.
  unfold final_state, initial_state, zeros in Lp, Ln, Lc, Lt.
  unfold GenerateParametricSurface, new_Float32Array, mbind, JS_bind, mret, JS_ret,
    in_world, throw.
  rewrite H3, H2. cbn [world console].
  destruct (grid _ _ _ _ _ _ _ _ _ _) as [g w'].
  cbn [fst] in Lp, Ln, Lc, Lt.
  destruct (position obj), (normal obj), (texCoord obj), col1, col2;
    repeat (rewrite exact_counter_attach;
            [|exact Hexact|lia|cbn [numVertices new_VertexBasedShape]; lia]);
    eexists _, _; split; reflexivity.
Qed.

End TessellatorCost.

(** ** The tessellator: the grid it lays over the parameter domain *)

Section Vertices.

Context {F : Type}.

Lemma vec3s_of_cons (v : vec3 F) (data : list F) :
  vec3s_of (vec3_list v ++ data) = v :: vec3s_of data.
Proof. destruct v as [[a b] c]. reflexivity. Qed.

Lemma vec2s_of_cons (v : vec2 F) (data : list F) :
  vec2s_of (vec2_list v ++ data) = v :: vec2s_of data.
Proof. destruct v as [a b]. reflexivity. Qed.

Lemma vec3s_of_flat_map (vs : list (vec3 F)) :
  vec3s_of (flat_map vec3_list vs) = vs.
Proof.
  induction vs as [|v vs IH]; [reflexivity|].
  change (flat_map vec3_list (v :: vs)) with (vec3_list v ++ flat_map vec3_list vs).
  now rewrite vec3s_of_cons, IH.
Qed.

Lemma vec2s_of_flat_map (vs : list (vec2 F)) :
  vec2s_of (flat_map vec2_list vs) = vs.
Proof.
  induction vs as [|v vs IH]; [reflexivity|].
  change (flat_map vec2_list (v :: vs)) with (vec2_list v ++ flat_map vec2_list vs).
  now rewrite vec2s_of_cons, IH.
Qed.

Lemma vec3s_of_six (a b c d e f : vec3 F) :
  vec3s_of (vec3_list a ++ vec3_list b ++ vec3_list c
            ++ vec3_list d ++ vec3_list e ++ vec3_list f)
  = [a; b; c; d; e; f].
Proof. apply (vec3s_of_flat_map [a; b; c; d; e; f]). Qed.

Lemma vec2s_of_six (a b c d e f : vec2 F) :
  vec2s_of (vec2_list a ++ vec2_list b ++ vec2_list c
            ++ vec2_list d ++ vec2_list e ++ vec2_list f)
  = [a; b; c; d; e; f].
Proof. apply (vec2s_of_flat_map [a; b; c; d; e; f]). Qed.

End Vertices.

Section PureStreams.

Context {F : Type} {numF : Number F}.
Variable count_vertices : string -> DataType -> Z -> Float32Array F -> Z.
Context {W : Type}.
Variable obj : Surface F W.
Variables (M N : Z) (umin umax vmin vmax : F) (col1 col2 : option (vec3 F)).

Local Open Scope num_scope.

(** The six points of the patch [(i, j)], as the source computes
    them. *)
Lemma patch_values_points {A : Type} (g : F -> F -> list A) (i j : Z) :
  patch_values M N umin umax vmin vmax col1 col2 (fun uu vv _ => g uu vv) i j
  = let u0 := umin + (num_of_Z i - num_of_Z 1) * (umax - umin) / num_of_Z M in
    let v0 := vmin + (num_of_Z j - num_of_Z 1) * (vmax - vmin) / num_of_Z N in
    let u := umin + num_of_Z i * (umax - umin) / num_of_Z M in
    let v := vmin + num_of_Z j * (vmax - vmin) / num_of_Z N in
    g u0 v ++ g u0 v0 ++ g u v0 ++ g u v ++ g u0 v ++ g u v0.
Proof. reflexivity. Qed.

Lemma position_patch f P w i j :
  position obj = Some f -> pure_method f P ->
  (1 <= i <= M)%Z -> (1 <= j <= N)%Z ->
  vertices_of_patch 3 N i j
    (stream (result_shape count_vertices obj M N umin umax vmin vmax col1 col2 w)
       "vertexPosition")
  = patch_values M N umin umax vmin vmax col1 col2
      (fun uu vv _ => vec3_list (P uu vv)) i j.
Proof.
  intros Hf Hpure Hi Hj. rewrite stream_vertexPosition, Hf.
  rewrite (final_array obj M N umin umax vmin vmax col1 col2 vposition
             (fun uu vv _ => emitted (position obj) vec3_list P uu vv) 3).
  - rewrite vertices_of_patch_grid; [|intros; now rewrite Hf|lia|lia].
    unfold patch_values, emitted. now rewrite Hf.
  - intros. apply makeVertex_vposition. unfold pure_as. now rewrite Hf.
  - reflexivity.
  - intros. now rewrite Hf.
  - lia.
  - lia.
Qed.

Lemma normal_patch f Nm w i j :
  normal obj = Some f -> pure_method f Nm ->
  (1 <= i <= M)%Z -> (1 <= j <= N)%Z ->
  vertices_of_patch 3 N i j
    (stream (result_shape count_vertices obj M N umin umax vmin vmax col1 col2 w)
       "vertexNormal")
  = patch_values M N umin umax vmin vmax col1 col2
      (fun uu vv _ => vec3_list (Nm uu vv)) i j.
Proof.
  intros Hf Hpure Hi Hj. rewrite stream_vertexNormal, Hf.
  rewrite (final_array obj M N umin umax vmin vmax col1 col2 vnormal
             (fun uu vv _ => emitted (normal obj) vec3_list Nm uu vv) 3).
  - rewrite vertices_of_patch_grid; [|intros; now rewrite Hf|lia|lia].
    unfold patch_values, emitted. now rewrite Hf.
  - intros. apply makeVertex_vnormal. unfold pure_as. now rewrite Hf.
  - reflexivity.
  - intros. now rewrite Hf.
  - lia.
  - lia.
Qed.

Lemma texCoord_patch f T w i j :
  texCoord obj = Some f -> pure_method f T ->
  (1 <= i <= M)%Z -> (1 <= j <= N)%Z ->
  vertices_of_patch 2 N i j
    (stream (result_shape count_vertices obj M N umin umax vmin vmax col1 col2 w)
       "vertexTexCoord")
  = patch_values M N umin umax vmin vmax col1 col2
      (fun uu vv _ => vec2_list (T uu vv)) i j.
Proof.
  intros Hf Hpure Hi Hj. rewrite stream_vertexTexCoord, Hf.
  rewrite (final_array obj M N umin umax vmin vmax col1 col2 vtexcoord
             (fun uu vv _ => emitted (texCoord obj) vec2_list T uu vv) 2).
  - rewrite vertices_of_patch_grid; [|intros; now rewrite Hf|lia|lia].
    unfold patch_values, emitted. now rewrite Hf.
  - intros. apply makeVertex_vtexcoord. unfold pure_as. now rewrite Hf.
  - reflexivity.
  - intros. now rewrite Hf.
  - lia.
  - lia.
Qed.

End PureStreams.

Section GridOverR.

Variable count_vertices : string -> DataType -> Z -> Float32Array R -> Z.
Context {W : Type}.

Local Open Scope R_scope.

(** The grid line [i] of the first parameter, in exact arithmetic. *)
Lemma next_u0 (umin umax : R) (M i : Z) :
  (umin + (IZR (i + 1) - 1) * (umax - umin) / IZR M
   = umin + IZR i * (umax - umin) / IZR M)%R.
Proof. rewrite plus_IZR. unfold Rdiv. ring. Qed.

Lemma first_u0 (umin umax : R) (M : Z) :
  (umin + (IZR 1 - 1) * (umax - umin) / IZR M = umin)%R.
Proof. unfold Rdiv. ring. Qed.

Lemma last_u (umin umax : R) (M : Z) :
  (1 <= M)%Z -> (umin + IZR M * (umax - umin) / IZR M = umax)%R.
Proof.
  intros HM. assert (IZR M <> 0) by (apply not_0_IZR; lia). field. assumption.
Qed.

(** X5. In exact real arithmetic neighbouring patches meet: the
    vertices of the patch (i, j) on its edge u = const are the
    vertices of the patch (i+1, j) on its edge u0 = const, and those
    on its edge v = const are those of the patch (i, j+1) on its edge
    v0 = const.  (Vertices of a patch are numbered from 0 in the order
    emitted.) *)
Theorem GenerateParametricSurface_patches_meet
    (obj : Surface R W) (M N : Z) (umin umax vmin vmax : R)
    (col1 col2 : option (vec3 R)) (env : Env W)
    (f : R -> R -> W -> vec3 R * W) (P : R -> R -> vec3 R) (i j : Z) :
  position obj = Some f -> pure_method f P ->
  (1 <= i <= M)%Z -> (1 <= j <= N)%Z ->
  exists shape env',
    GenerateParametricSurface count_vertices obj M N umin umax vmin vmax col1 col2 env
    = Normal (shape, env')
    /\ let vertices i j :=
         vec3s_of (vertices_of_patch 3 N i j (stream shape "vertexPosition")) in
       ((i < M)%Z ->
        exists a b,
          vertices i j !! 2%nat = Some a /\ vertices (i + 1)%Z j !! 1%nat = Some a
          /\ vertices i j !! 3%nat = Some b /\ vertices (i + 1)%Z j !! 0%nat = Some b)
       /\ ((j < N)%Z ->
           exists a b,
             vertices i j !! 0%nat = Some a /\ vertices i (j + 1)%Z !! 1%nat = Some a
             /\ vertices i j !! 3%nat = Some b
             /\ vertices i (j + 1)%Z !! 2%nat = Some b).
Proof.
  intros Hf Hpure Hi Hj.
  destruct (GenerateParametricSurface_normal count_vertices obj M N
              umin umax vmin vmax col1 col2 env) as [console' Hrun]; [nia|].
  eexists _, _. split; [exact Hrun|].
  cbv beta zeta. split.
  - intros HiM.
    rewrite !(position_patch count_vertices obj M N umin umax vmin vmax col1 col2
                f P) by (assumption || lia).
    rewrite !patch_values_points. cbv beta zeta. rewrite !vec3s_of_six.
    cbn [lookup list_lookup num_of_Z num_add num_sub num_mul num_div Number_R].
    rewrite next_u0. eexists _, _. repeat split.
  - intros HjN.
    rewrite !(position_patch count_vertices obj M N umin umax vmin vmax col1 col2
                f P) by (assumption || lia).
    rewrite !patch_values_points. cbv beta zeta. rewrite !vec3s_of_six.
    cbn [lookup list_lookup num_of_Z num_add num_sub num_mul num_div Number_R].
    rewrite next_u0. eexists _, _. repeat split.
Qed.

(** X6. In exact real arithmetic, for M, N >= 1, the grid spans the
    whole parameter domain: the four corner patches carry the values
    of the position method at (umin, vmin), (umax, vmin), (umin, vmax)
    and (umax, vmax). *)
Theorem GenerateParametricSurface_covers_domain
    (obj : Surface R W) (M N : Z) (umin umax vmin vmax : R)
    (col1 col2 : option (vec3 R)) (env : Env W)
    (f : R -> R -> W -> vec3 R * W) (P : R -> R -> vec3 R) :
  position obj = Some f -> pure_method f P ->
  (1 <= M)%Z -> (1 <= N)%Z ->
  exists shape env',
    GenerateParametricSurface count_vertices obj M N umin umax vmin vmax col1 col2 env
    = Normal (shape, env')
    /\ let vertices i j :=
         vec3s_of (vertices_of_patch 3 N i j (stream shape "vertexPosition")) in
       vertices 1%Z 1%Z !! 1%nat = Some (P umin vmin)
       /\ vertices M 1%Z !! 2%nat = Some (P umax vmin)
       /\ vertices 1%Z N !! 0%nat = Some (P umin vmax)
       /\ vertices M N !! 3%nat = Some (P umax vmax).
Proof.
  intros Hf Hpure HM HN.
  destruct (GenerateParametricSurface_normal count_vertices obj M N
              umin umax vmin vmax col1 col2 env) as [console' Hrun]; [nia|].
  eexists _, _. split; [exact Hrun|].
  cbv beta zeta.
  rewrite !(position_patch count_vertices obj M N umin umax vmin vmax col1 col2
              f P) by (assumption || lia).
  rewrite !patch_values_points. cbv beta zeta. rewrite !vec3s_of_six.
  cbn [lookup list_lookup num_of_Z num_add num_sub num_mul num_div Number_R].
  rewrite !first_u0, !last_u by assumption.
  repeat split.
Qed.

End GridOverR.

(** ** Torus *)

Section TorusGeometry.

Local Open Scope R_scope.

(** X7. In exact real arithmetic, for 0 <= radius2 <= radius, every
    position (x, y, z) the torus computes lies on the torus:
    (sqrt (x^2 + y^2) - radius)^2 + z^2 = radius2^2. *)
Theorem Torus_position_on_torus (this : TorusObject R) (t p : R) (w : Globals R) :
  0 <= radius2 this <= radius this ->
  let '(x, y, z) := (Torus_position this t p w).1 in
  (sqrt (x * x + y * y) - radius this) * (sqrt (x * x + y * y) - radius this)
  + z * z
  = radius2 this * radius2 this.
Proof.
  intros [Hr2 Hr]. unfold Torus_position.
  cbn [fst snd num_add num_mul Math_cos Math_sin Number_R JSMath_R].
  set (a := radius this + radius2 this * cos p).
  assert (Ha : 0 <= a).
  { unfold a. pose proof (COS_bound p) as [Hlo Hhi]. nra. }
  pose proof (sin2_cos2 t) as Ht. pose proof (sin2_cos2 p) as Hp.
  unfold Rsqr in Ht, Hp.
  replace (a * cos t * (a * cos t) + a * sin t * (a * sin t))
    with (a * a * (sin t * sin t + cos t * cos t)) by ring.
  rewrite Ht, Rmult_1_r, (sqrt_square a Ha). unfold a.
  replace ((radius this + radius2 this * cos p - radius this)
           * (radius this + radius2 this * cos p - radius this)
           + radius2 this * sin p * (radius2 this * sin p))
    with (radius2 this * radius2 this * (sin p * sin p + cos p * cos p)) by ring.
  rewrite Hp. ring.
Qed.

(** X8. In exact real arithmetic the normal the torus computes at
    (t, p) is the direction from the centre of the tube,
    (radius cos t, radius sin t, 0), to the position computed at
    (t, p): position = centre + radius2 * normal. *)
Theorem Torus_normal_from_tube_centre (this : TorusObject R) (t p : R)
    (w w' : Globals R) :
  let '(x, y, z) := (Torus_position this t p w).1 in
  let '(nx, ny, nz) := (Torus_normal this t p w').1 in
  x = radius this * cos t + radius2 this * nx
  /\ y = radius this * sin t + radius2 this * ny
  /\ z = 0 + radius2 this * nz.
Proof.
  unfold Torus_position, Torus_normal.
  cbn [fst snd h num_of_Z num_add num_mul Math_cos Math_sin Number_R JSMath_R].
  repeat split; ring.
Qed.

End TorusGeometry.

Section TorusMesh.

Variable count_vertices : string -> DataType -> Z -> Float32Array R -> Z.

Local Open Scope R_scope.

(** The torus as a function of its two angles. *)
Lemma Torus_position_pure (this : TorusObject R) :
  pure_method (Torus_position this)
    (fun t p => ((radius this + radius2 this * cos p) * cos t,
                 (radius this + radius2 this * cos p) * sin t,
                 radius2 this * sin p)).
Proof. intros t p w. reflexivity. Qed.

Lemma Torus_texCoord_pure (this : TorusObject R) :
  pure_method (Torus_texCoord this) (fun u v => (u / (2 * PI), v / (2 * PI))).
Proof. intros u v w. reflexivity. Qed.

Lemma Torus_last_angle (M : Z) :
  (1 <= M)%Z -> 0 + IZR M * (2 * PI - 0) / IZR M = 2 * PI.
Proof. apply last_u. Qed.

(** X9. In exact real arithmetic the torus mesh closes up in both
    directions: for M, N >= 1 the last row of patches ends on the
    vertices the first row starts from, and the last patch of every
    row ends on the vertices its first patch starts from. *)
Theorem Torus_mesh_closed (radius radius2 : R) (N M : Z)
    (col1 col2 : option (vec3 R)) (env : Env (Globals R)) (i j : Z) :
  (1 <= i <= M)%Z -> (1 <= j <= N)%Z ->
  exists shape env',
    Torus count_vertices radius radius2 N M col1 col2 env = Normal (shape, env')
    /\ let vertices i j :=
         vec3s_of (vertices_of_patch 3 N i j (stream shape "vertexPosition")) in
       (exists a b,
          vertices M j !! 2%nat = Some a /\ vertices 1%Z j !! 1%nat = Some a
          /\ vertices M j !! 3%nat = Some b /\ vertices 1%Z j !! 0%nat = Some b)
       /\ (exists a b,
             vertices i N !! 0%nat = Some a /\ vertices i 1%Z !! 1%nat = Some a
             /\ vertices i N !! 3%nat = Some b /\ vertices i 1%Z !! 2%nat = Some b).
Proof.
  intros Hi Hj. unfold Torus.
  destruct (GenerateParametricSurface_normal count_vertices
              (Torus_surface (mkTorus radius radius2)) M N
              (num_of_Z 0) (num_of_Z 2 * Math_PI)%num
              (num_of_Z 0) (num_of_Z 2 * Math_PI)%num
              col1 col2 env) as [console' Hrun]; [nia|].
  eexists _, _. split; [exact Hrun|].
  cbv beta zeta.
  pose proof (fun w i j =>
                position_patch count_vertices
                  (Torus_surface (mkTorus radius radius2)) M N
                  (num_of_Z 0) (num_of_Z 2 * Math_PI)%num
                  (num_of_Z 0) (num_of_Z 2 * Math_PI)%num col1 col2
                  (Torus_position (mkTorus radius radius2)) _ w i j eq_refl
                  (Torus_position_pure _)) as Hpatch.
  rewrite !Hpatch by lia.
  rewrite !patch_values_points. cbv beta zeta. rewrite !vec3s_of_six.
  cbn [lookup list_lookup num_of_Z num_add num_sub num_mul num_div
         Math_PI Number_R JSMath_R].
  rewrite !Torus_last_angle, !first_u0 by lia.
  rewrite cos_2PI, sin_2PI, cos_0, sin_0.
  split; eexists _, _; repeat split.
Qed.

(** X10. In exact real arithmetic the texture coordinates of the
    torus follow the grid: the vertices of the patch (i, j) carry
    ((i-1)/M or i/M, (j-1)/N or j/N), so that the texture is laid once
    over the whole torus and stays within the unit square. *)
Theorem Torus_texture_coordinates (radius radius2 : R) (N M : Z)
    (col1 col2 : option (vec3 R)) (env : Env (Globals R)) (i j : Z) :
  (1 <= i <= M)%Z -> (1 <= j <= N)%Z ->
  exists shape env',
    Torus count_vertices radius radius2 N M col1 col2 env = Normal (shape, env')
    /\ let s0 := (IZR i - 1) / IZR M in
       let s := IZR i / IZR M in
       let t0 := (IZR j - 1) / IZR N in
       let t := IZR j / IZR N in
       vec2s_of (vertices_of_patch 2 N i j (stream shape "vertexTexCoord"))
       = [(s0, t); (s0, t0); (s, t0); (s, t); (s0, t); (s, t0)]
       /\ 0 <= s0 <= 1 /\ 0 <= s <= 1 /\ 0 <= t0 <= 1 /\ 0 <= t <= 1.
Proof.
  intros Hi Hj. unfold Torus.
  destruct (GenerateParametricSurface_normal count_vertices
              (Torus_surface (mkTorus radius radius2)) M N
              (num_of_Z 0) (num_of_Z 2 * Math_PI)%num
              (num_of_Z 0) (num_of_Z 2 * Math_PI)%num
              col1 col2 env) as [console' Hrun]; [nia|].
  eexists _, _. split; [exact Hrun|].
  assert (HM : 0 < IZR M) by (apply IZR_lt; lia).
  assert (HN : 0 < IZR N) by (apply IZR_lt; lia).
  assert (Hi1 : 1 <= IZR i <= IZR M) by (split; apply IZR_le; lia).
  assert (Hj1 : 1 <= IZR j <= IZR N) by (split; apply IZR_le; lia).
  pose proof PI_RGT_0 as Hpi.
  cbv beta zeta. split.
  - rewrite (texCoord_patch count_vertices
               (Torus_surface (mkTorus radius radius2)) M N
               (num_of_Z 0) (num_of_Z 2 * Math_PI)%num
               (num_of_Z 0) (num_of_Z 2 * Math_PI)%num col1 col2
               (Torus_texCoord (mkTorus radius radius2)) _ _ i j eq_refl
               (Torus_texCoord_pure _)) by lia.
    rewrite patch_values_points. cbv beta zeta. rewrite vec2s_of_six.
    cbn [num_of_Z num_add num_sub num_mul num_div Math_PI Number_R JSMath_R].
    assert (Hu0 : (0 + (IZR i - 1) * (2 * PI - 0) / IZR M) / (2 * PI)
                  = (IZR i - 1) / IZR M) by (field; lra).
    assert (Hu : (0 + IZR i * (2 * PI - 0) / IZR M) / (2 * PI)
                 = IZR i / IZR M) by (field; lra).
    assert (Hv0 : (0 + (IZR j - 1) * (2 * PI - 0) / IZR N) / (2 * PI)
                  = (IZR j - 1) / IZR N) by (field; lra).
    assert (Hv : (0 + IZR j * (2 * PI - 0) / IZR N) / (2 * PI)
                 = IZR j / IZR N) by (field; lra).
    rewrite Hu0, Hu, Hv0, Hv. reflexivity.
  - assert (Hdiv : forall a b, 0 < b -> 0 <= a <= b -> 0 <= a / b <= 1).
    { intros a b Hb [Ha0 Hab]. split.
      - apply Rmult_le_pos; [lra|]. left. now apply Rinv_0_lt_compat.
      - apply (Rmult_le_reg_r b); [lra|]. unfold Rdiv.
        rewrite Rmult_assoc, Rinv_l by lra. lra. }
    repeat split; apply Hdiv; lra.
Qed.

End TorusMesh.

Lemma for_upto_overwrites {S T : Type} (proj : S -> T) (set : T -> T)
    (body : Z -> S -> S) :
  (forall i s, proj (body i s) = set (proj s)) ->
  (forall x, set (set x) = set x) ->
  forall n lo s, (0 < n)%nat -> proj (for_upto n lo body s) = set (proj s).
Proof.
  intros Hbody Hidem n. induction n as [|n IH]; intros lo s Hn; [lia|].
  simpl. destruct n as [|n].
  - simpl. apply Hbody.
  - rewrite IH by lia. now rewrite Hbody, Hidem.
Qed.

Section TorusGlobals.

Context {F : Type} {numF : Number F} {mathF : JSMath F}.
Variable count_vertices : string -> DataType -> Z -> Float32Array F -> Z.

Lemma makeVertex_Torus_world (this : TorusObject F) (uu vv : F)
    (color : option (vec3 F)) (st : GenState F * Globals F) :
  (makeVertex (Torus_surface this) uu vv color st).2 = h_set st.2.
Proof.
  destruct st as [g w]. destruct color as [[[c0 c1] c2]|]; reflexivity.
Qed.

Lemma h_set_idem (w : Globals F) : h_set (h_set w) = h_set w.
Proof. reflexivity. Qed.

(** X11. Building a torus with at least one patch leaves the global
    variable [h] set to 1, whatever it held before, and the other
    globals as they were; the assignment in [Torus.normal] is to an
    undeclared variable. *)
Theorem Torus_sets_global_h (radius radius2 : F) (N M : Z)
    (col1 col2 : option (vec3 F)) (env : Env (Globals F)) :
  (1 <= M)%Z -> (1 <= N)%Z ->
  exists shape env',
    Torus count_vertices radius radius2 N M col1 col2 env = Normal (shape, env')
    /\ h (world env') = num_of_Z 1
    /\ u1 (world env') = u1 (world env)
    /\ u2 (world env') = u2 (world env).
Proof.
  intros HM HN. unfold Torus.
  destruct (GenerateParametricSurface_normal count_vertices
              (Torus_surface (mkTorus radius radius2)) M N
              (num_of_Z 0) (num_of_Z 2 * Math_PI)%num
              (num_of_Z 0) (num_of_Z 2 * Math_PI)%num
              col1 col2 env) as [console' Hrun]; [nia|].
  eexists _, _. split; [exact Hrun|].
  cbn [world].
  assert (Hw : (final_state (Torus_surface (mkTorus radius radius2)) M N
                  (num_of_Z 0) (num_of_Z 2 * Math_PI)%num
                  (num_of_Z 0) (num_of_Z 2 * Math_PI)%num col1 col2 (world env)).2
               = h_set (world env)).
  { unfold final_state, grid, for_le.
    rewrite (for_upto_overwrites snd h_set); [reflexivity| |apply h_set_idem|lia].
    intros i s.
    rewrite (for_upto_overwrites snd h_set); [reflexivity| |apply h_set_idem|lia].
    intros j s'. unfold patch.
    rewrite !makeVertex_Torus_world. reflexivity. }
  rewrite Hw. repeat split.
Qed.

End TorusGlobals.

(** ** Sphere *)

Lemma flat_map_grid_push {B C : Type} (f : Z -> Z -> list B) (g : B -> list C)
    (rows cols : list Z) :
  flat_map g (flat_map (fun i => flat_map (fun j => f i j) cols) rows)
  = flat_map (fun i => flat_map (fun j => flat_map g (f i j)) cols) rows.
Proof.
  induction rows as [|i rows IH]; [reflexivity|].
  simpl. rewrite flat_map_app, IH. f_equal.
  clear IH. induction cols as [|j cols IH]; [reflexivity|].
  simpl. now rewrite flat_map_app, IH.
Qed.

Lemma flat_map_ext_elem {A B : Type} (f g : A -> list B) (l : list A) :
  (forall x, x ∈ l -> f x = g x) -> flat_map f l = flat_map g l.
Proof.
  induction l as [|x l IH]; intros Hfg; [reflexivity|].
  simpl. rewrite (Hfg x) by apply list_elem_of_here.
  rewrite IH; [reflexivity|]. intros y Hy. apply Hfg. now apply list_elem_of_further.
Qed.

Lemma Forall_flat_map_all {A B : Type} (P : B -> Prop) (f : A -> list B) (l : list A) :
  (forall x, Forall P (f x)) -> Forall P (flat_map f l).
Proof.
  intros Hf. induction l as [|x l IH]; simpl; [constructor|].
  apply Forall_app. split; [apply Hf|exact IH].
Qed.

Section SphereLists.

Context {F : Type} {numF : Number F} {mathF : JSMath F}.
Variable count_vertices : string -> DataType -> Z -> Float32Array F -> Z.
Variable vec3_normalize : vec3 F -> vec3 F.
Variables (r : F) (N M : Z) (c1 c2 : vec3 F).

Lemma Sphere_patch_lists i j st :
  let st' := Sphere_patch vec3_normalize r N M c1 c2 i j st in
  vList st'.1 = vList st.1 ++ flat_map vec3_list (Sphere_patch_points r N M i j)
  /\ nList st'.1
     = nList st.1
       ++ flat_map vec3_list (map vec3_normalize (Sphere_patch_points r N M i j))
  /\ tList st'.1 = tList st.1 ++ flat_map vec2_list (Sphere_patch_texcoords N M i j).
Proof.
  destruct st as [l w].
  unfold Sphere_patch, Sphere_patch_points, Sphere_patch_texcoords, Sphere_point,
    Sphere_texcoord, Sphere_u1, Sphere_u2, Sphere_v1, Sphere_v2.
  cbn [u1 u2 h map].
  repeat match goal with
         | |- context [vec3_normalize ?v] =>
             destruct (vec3_normalize v) as [[? ?] ?]
         end.
  repeat split.
Qed.

(** The three lists when the loops are left. *)
Lemma Sphere_grid_lists w :
  let final := Sphere_grid vec3_normalize r N M c1 c2
                 (mkSphereLists [] [] [] [], w) in
  vList final.1 = flat_map vec3_list (Sphere_points r N M)
  /\ nList final.1 = flat_map vec3_list (map vec3_normalize (Sphere_points r N M))
  /\ tList final.1 = flat_map vec2_list (Sphere_texcoords N M).
Proof.
  cbv zeta. unfold Sphere_grid, Sphere_points, Sphere_texcoords.
  replace (seqZ 1 N) with (seqZ 1 (N + 1 - 1)) by (f_equal; lia).
  replace (seqZ 1 M) with (seqZ 1 (M + 1 - 1)) by (f_equal; lia).
  repeat split.
  - apply (for_le_appends
             (fun (s : SphereLists F * Globals F) l =>
                vList s.1 = flat_map vec3_list l) _ _ _ _) with (l := []);
      [|reflexivity].
    intros i s l Hs.
    apply (for_le_appends
             (fun (s : SphereLists F * Globals F) l =>
                vList s.1 = flat_map vec3_list l)); [|exact Hs].
    intros j s' l' Hs'.
    rewrite (proj1 (Sphere_patch_lists i j s')), Hs'. now rewrite flat_map_app.
  - apply (for_le_appends
             (fun (s : SphereLists F * Globals F) l =>
                nList s.1 = flat_map vec3_list (map vec3_normalize l)) _ _ _ _)
      with (l := []); [|reflexivity].
    intros i s l Hs.
    apply (for_le_appends
             (fun (s : SphereLists F * Globals F) l =>
                nList s.1 = flat_map vec3_list (map vec3_normalize l)));
      [|exact Hs].
    intros j s' l' Hs'.
    rewrite (proj1 (proj2 (Sphere_patch_lists i j s'))), Hs'.
    now rewrite map_app, flat_map_app.
  - apply (for_le_appends
             (fun (s : SphereLists F * Globals F) l =>
                tList s.1 = flat_map vec2_list l) _ _ _ _) with (l := []);
      [|reflexivity].
    intros i s l Hs.
    apply (for_le_appends
             (fun (s : SphereLists F * Globals F) l =>
                tList s.1 = flat_map vec2_list l)); [|exact Hs].
    intros j s' l' Hs'.
    rewrite (proj2 (proj2 (Sphere_patch_lists i j s'))), Hs'.
    now rewrite flat_map_app.
Qed.

Lemma length_Sphere_points :
  length (Sphere_points r N M) = (6 * Z.to_nat M * Z.to_nat N)%nat.
Proof. unfold Sphere_points. now apply length_grid_list. Qed.

Lemma length_Sphere_texcoords :
  length (Sphere_texcoords (F:=F) N M) = (6 * Z.to_nat M * Z.to_nat N)%nat.
Proof. unfold Sphere_texcoords. now apply length_grid_list. Qed.

Lemma length_flat_vec3 (vs : list (vec3 F)) :
  length (flat_map vec3_list vs) = (3 * length vs)%nat.
Proof. now apply length_flat_map_uniform. Qed.

Lemma length_flat_vec2 (vs : list (vec2 F)) :
  length (flat_map vec2_list vs) = (2 * length vs)%nat.
Proof. now apply length_flat_map_uniform. Qed.

Lemma length_Sphere_cList w :
  length (cList (Sphere_grid vec3_normalize r N M c1 c2
                   (mkSphereLists [] [] [] [], w)).1)
  = (18 * Z.to_nat M * Z.to_nat N)%nat.
Proof.
  rewrite Sphere_grid_cList. cbn [fst cList app].
  apply (length_grid_list _ 18). intros i j. reflexivity.
Qed.

Lemma Sphere_cells_count :
  Z.of_nat (6 * Z.to_nat M * Z.to_nat N) = (6 * Z.max 0 N * Z.max 0 M)%Z.
Proof.
  assert (HN : Z.of_nat (Z.to_nat N) = Z.max 0 N) by lia.
  assert (HM : Z.of_nat (Z.to_nat M) = Z.max 0 M) by lia.
  rewrite !Nat2Z.inj_mul, HN, HM. change (Z.of_nat 6) with 6%Z. ring.
Qed.

(** X12. [Sphere] returns for all N and M: the shape declares
    6 * max(0,N) * max(0,M) vertices (none when N <= 0 or M <= 0) and
    carries that many positions, colors and normals of 3 numbers and
    texture coordinates of 2 numbers. *)
Theorem Sphere_vertex_count (env : Env (Globals F)) :
  exists shape env',
    Sphere count_vertices vec3_normalize r N M c1 c2 env = Normal (shape, env')
    /\ numVertices shape = (6 * Z.max 0 N * Z.max 0 M)%Z
    /\ Z.of_nat (length (stream shape "vertexPosition")) = (numVertices shape * 3)%Z
    /\ Z.of_nat (length (stream shape "vertexColor")) = (numVertices shape * 3)%Z
    /\ Z.of_nat (length (stream shape "vertexNormal")) = (numVertices shape * 3)%Z
    /\ Z.of_nat (length (stream shape "vertexTexCoord")) = (numVertices shape * 2)%Z.
Proof.
  destruct (Sphere_normal count_vertices vec3_normalize r N M c1 c2 env)
    as [console' Hrun].
  destruct (Sphere_grid_lists (world env)) as (Hv & Hn & Ht).
  pose proof (length_Sphere_cList (world env)) as Hc.
  cbv zeta in Hrun, Hv, Hn, Ht.
  eexists _, _. split; [exact Hrun|].
  unfold stream. cbn [vertexBuffers numVertices List.find attrType dataArray
                        new_VertexAttributeBuffer String.eqb Ascii.eqb Bool.eqb].
  rewrite Hv, Hn, Ht, Hc, !length_flat_vec3, length_flat_vec2, length_map,
    length_Sphere_points, length_Sphere_texcoords.
  assert (Hnum : (Z.of_nat (3 * (6 * Z.to_nat M * Z.to_nat N)) / 3
                  = 6 * Z.max 0 N * Z.max 0 M)%Z).
  { rewrite Nat2Z.inj_mul, Sphere_cells_count.
    change (Z.of_nat 3) with 3%Z. rewrite Z.mul_comm. now apply Z.div_mul. }
  rewrite Hnum. pose proof Sphere_cells_count as Hcells.
  repeat split; lia.
Qed.

(** X13. When the buffer constructor counts exactly, [Sphere] writes
    nothing to the console: its four arrays all have the number of
    vertices it declares. *)
Theorem Sphere_no_warning (env : Env (Globals F)) :
  exact_counter count_vertices ->
  exists shape env',
    Sphere count_vertices vec3_normalize r N M c1 c2 env = Normal (shape, env')
    /\ console env' = console env.
Proof.
  intros Hexact.
  destruct (Sphere_grid_lists (world env)) as (Hv & Hn & Ht).
  pose proof (length_Sphere_cList (world env)) as Hc.
  cbv zeta in Hv, Hn, Ht.
  unfold Sphere, mbind, JS_bind, mret, JS_ret, in_world.
  destruct (Sphere_grid _ _ _ _ _ _ _) as [l w'].
  cbn [fst] in Hv, Hn, Ht, Hc.
  assert (Hnum : (Z.of_nat (length (vList l)) / 3
                  = Z.of_nat (6 * Z.to_nat M * Z.to_nat N))%Z).
  { rewrite Hv, length_flat_vec3, length_Sphere_points, Nat2Z.inj_mul.
    change (Z.of_nat 3) with 3%Z. rewrite Z.mul_comm. now apply Z.div_mul. }
  rewrite Hnum.
  repeat (rewrite exact_counter_attach;
          [|exact Hexact|lia|cbn [numVertices new_VertexBasedShape]]).
  - eexists _, _. split; reflexivity.
  - rewrite Ht, length_flat_vec2, length_Sphere_texcoords. lia.
  - rewrite Hn, length_flat_vec3, length_map, length_Sphere_points. lia.
  - rewrite Hc. lia.
  - rewrite Hv, length_flat_vec3, length_Sphere_points. lia.
Qed.


End SphereLists.

Section SphereColors.

Context {F : Type} {numF : Number F} {mathF : JSMath F}.
Variable count_vertices : string -> DataType -> Z -> Float32Array F -> Z.
Variable vec3_normalize : vec3 F -> vec3 F.
Context {W : Type}.

(** X15. The sphere's checkerboard is the tessellator's with the two
    colors exchanged: for N, M >= 0 the color array of
    [Sphere r N M c1 c2] is the color array the tessellator makes for
    an N by M grid with colors c2 and c1. *)
Theorem Sphere_colors_exchanged (r : F) (N M : Z) (c1 c2 : vec3 F)
    (env : Env (Globals F)) (obj : Surface F W) (umin umax vmin vmax : F)
    (env0 : Env W) :
  (0 <= N)%Z -> (0 <= M)%Z ->
  exists sphere env' shape env0',
    Sphere count_vertices vec3_normalize r N M c1 c2 env = Normal (sphere, env')
    /\ GenerateParametricSurface count_vertices obj N M umin umax vmin vmax
         (Some c2) (Some c1) env0 = Normal (shape, env0')
    /\ stream sphere "vertexColor" = stream shape "vertexColor".
Proof.
  intros HN HM.
  destruct (Sphere_normal count_vertices vec3_normalize r N M c1 c2 env)
    as [console' Hrun].
  destruct (GenerateParametricSurface_normal count_vertices obj N M
              umin umax vmin vmax (Some c2) (Some c1) env0)
    as [console0 Hrun0]; [nia|].
  cbv zeta in Hrun.
  eexists _, _, _, _. split; [exact Hrun|]. split; [exact Hrun0|].
  rewrite stream_vertexColor. cbn [both].
  rewrite (final_array obj N M umin umax vmin vmax (Some c2) (Some c1)
             vcolor (fun _ _ color => color_list color) 3);
    [|intros; apply makeVertex_vcolor|reflexivity| |lia|lia].
  2:{ intros i j. unfold patch_values.
      destruct (Z.rem (i + j) 2 =? 0)%Z; reflexivity. }
  unfold stream. cbn [vertexBuffers List.find attrType dataArray
                        new_VertexAttributeBuffer String.eqb Ascii.eqb Bool.eqb].
  rewrite Sphere_grid_cList. cbn [fst cList app].
  apply flat_map_ext_elem. intros i Hi. apply elem_of_seqZ in Hi.
  apply flat_map_ext_elem. intros j Hj. apply elem_of_seqZ in Hj.
  unfold patch_values, Sphere_patch_color.
  rewrite Sphere_rule_opposite by lia.
  destruct (Z.rem (i + j) 2 =? 0)%Z; reflexivity.
Qed.

End SphereColors.

Section SphereOverR.

Variable count_vertices : string -> DataType -> Z -> Float32Array R -> Z.
Variable vec3_normalize : vec3 R -> vec3 R.

Local Open Scope R_scope.

Lemma Sphere_point_on_sphere (r u v : R) :
  let '(x, y, z) := Sphere_point r u v in
  x * x + y * y + z * z = r * r.
Proof.
  unfold Sphere_point. cbn [num_mul Math_sin Math_cos Number_R JSMath_R].
  pose proof (sin2_cos2 u) as Hu. pose proof (sin2_cos2 v) as Hv.
  unfold Rsqr in Hu, Hv.
  replace (r * sin u * cos v * (r * sin u * cos v)
           + r * sin u * sin v * (r * sin u * sin v) + r * cos u * (r * cos u))
    with (r * r * (sin u * sin u * (sin v * sin v + cos v * cos v)
                   + cos u * cos u)) by ring.
  rewrite Hv, Rmult_1_r, Hu. ring.
Qed.

(** X16. In exact real arithmetic every vertex of the sphere lies at
    distance r from the origin: x^2 + y^2 + z^2 = r^2. *)
Theorem Sphere_vertices_on_sphere (r : R) (N M : Z) (c1 c2 : vec3 R)
    (env : Env (Globals R)) :
  exists shape env',
    Sphere count_vertices vec3_normalize r N M c1 c2 env = Normal (shape, env')
    /\ Forall (fun '(x, y, z) => x * x + y * y + z * z = r * r)
         (vec3s_of (stream shape "vertexPosition")).
Proof.
  destruct (Sphere_normal count_vertices vec3_normalize r N M c1 c2 env)
    as [console' Hrun].
  destruct (Sphere_grid_lists vec3_normalize r N M c1 c2 (world env))
    as (Hv & _ & _).
  cbv zeta in Hrun, Hv.
  eexists _, _. split; [exact Hrun|].
  unfold stream. cbn [vertexBuffers List.find attrType dataArray
                        new_VertexAttributeBuffer String.eqb Ascii.eqb Bool.eqb].
  rewrite Hv, vec3s_of_flat_map. unfold Sphere_points.
  apply Forall_flat_map_all. intros i.
  apply Forall_flat_map_all. intros j.
  unfold Sphere_patch_points.
  repeat (constructor; [apply Sphere_point_on_sphere|]). constructor.
Qed.

Lemma Sphere_patch_slice {A : Type} (comps : nat) (to_list : A -> list R)
    (f : Z -> Z -> list A) (N M i j : Z) :
  (forall i j, length (flat_map to_list (f i j)) = (6 * comps)%nat) ->
  (1 <= i <= N)%Z -> (1 <= j <= M)%Z ->
  vertices_of_patch comps M i j
    (flat_map to_list
       (flat_map (fun i => flat_map (fun j => f i j) (seqZ 1 M)) (seqZ 1 N)))
  = flat_map to_list (f i j).
Proof.
  intros Hlen Hi Hj. rewrite flat_map_grid_push.
  now apply (vertices_of_patch_grid (fun i j => flat_map to_list (f i j))).
Qed.

Lemma Sphere_angle_u (N i : Z) :
  (1 <= N)%Z -> PI / IZR N * IZR i / PI = IZR i / IZR N.
Proof.
  intros HN. assert (IZR N <> 0) by (apply not_0_IZR; lia).
  pose proof PI_neq0. field. split; assumption.
Qed.

Lemma Sphere_angle_v (M j : Z) :
  (1 <= M)%Z -> PI * 2 / IZR M * IZR j / (2 * PI) = IZR j / IZR M.
Proof.
  intros HM. assert (IZR M <> 0) by (apply not_0_IZR; lia).
  pose proof PI_neq0. field. split; assumption.
Qed.

(** X17. In exact real arithmetic the texture coordinates of the
    sphere are (j/M + 1/4, -(i/N)) at the grid point (i, j): the
    first lies between 1/4 and 5/4 and the second between -1 and 0,
    outside the unit square. *)
Theorem Sphere_texture_coordinates (r : R) (N M : Z) (c1 c2 : vec3 R)
    (env : Env (Globals R)) (i j : Z) :
  (1 <= i <= N)%Z -> (1 <= j <= M)%Z ->
  exists shape env',
    Sphere count_vertices vec3_normalize r N M c1 c2 env = Normal (shape, env')
    /\ let s := IZR j / IZR M + 1 / 4 in
       let s0 := (IZR j - 1) / IZR M + 1 / 4 in
       let t := - (IZR i / IZR N) in
       let t0 := - ((IZR i - 1) / IZR N) in
       vec2s_of (vertices_of_patch 2 M i j (stream shape "vertexTexCoord"))
       = [(s, t); (s, t0); (s0, t0); (s, t); (s0, t); (s0, t0)]
       /\ 1 / 4 <= s0 <= s /\ s <= 5 / 4 /\ -1 <= t <= t0 /\ t0 <= 0.
Proof.
  intros Hi Hj.
  destruct (Sphere_normal count_vertices vec3_normalize r N M c1 c2 env)
    as [console' Hrun].
  destruct (Sphere_grid_lists vec3_normalize r N M c1 c2 (world env))
    as (_ & _ & Ht).
  cbv zeta in Hrun, Ht.
  eexists _, _. split; [exact Hrun|].
  assert (HM : 0 < IZR M) by (apply IZR_lt; lia).
  assert (HN : 0 < IZR N) by (apply IZR_lt; lia).
  assert (Hi1 : 1 <= IZR i <= IZR N) by (split; apply IZR_le; lia).
  assert (Hj1 : 1 <= IZR j <= IZR M) by (split; apply IZR_le; lia).
  cbv beta zeta. split.
  - unfold stream. cbn [vertexBuffers List.find attrType dataArray
                          new_VertexAttributeBuffer String.eqb Ascii.eqb Bool.eqb].
    rewrite Ht. unfold Sphere_texcoords.
    rewrite (Sphere_patch_slice 2 vec2_list) by (auto || lia).
    rewrite vec2s_of_flat_map.
    unfold Sphere_patch_texcoords, Sphere_texcoord, Sphere_u1, Sphere_u2,
      Sphere_v1, Sphere_v2.
    cbn [num_of_Z num_add num_sub num_mul num_div num_neg Math_PI
           Number_R JSMath_R].
    assert (Hu1 : PI / IZR N * IZR i / PI = IZR i / IZR N)
      by (apply Sphere_angle_u; lia).
    assert (Hu2 : PI / IZR N * (IZR i - 1) / PI = (IZR i - 1) / IZR N)
      by (pose proof PI_neq0; field; split; lra).
    assert (Hv1 : PI * 2 / IZR M * IZR j / (2 * PI) = IZR j / IZR M)
      by (apply Sphere_angle_v; lia).
    assert (Hv2 : PI * 2 / IZR M * (IZR j - 1) / (2 * PI) = (IZR j - 1) / IZR M)
      by (pose proof PI_neq0; field; split; lra).
    rewrite Hu1, Hu2, Hv1, Hv2. reflexivity.
  - assert (Hdiv : forall a b, 0 < b -> 0 <= a <= b -> 0 <= a / b <= 1).
    { intros a b Hb [Ha0 Hab]. split.
      - apply Rmult_le_pos; [lra|]. left. now apply Rinv_0_lt_compat.
      - apply (Rmult_le_reg_r b); [lra|]. unfold Rdiv.
        rewrite Rmult_assoc, Rinv_l by lra. lra. }
    assert (Hmono : forall a b, 0 < b -> (a - 1) / b <= a / b).
    { intros a b Hb. unfold Rdiv. apply Rmult_le_compat_r; [|lra].
      left. now apply Rinv_0_lt_compat. }
    pose proof (Hdiv (IZR j) (IZR M) HM ltac:(lra)).
    pose proof (Hdiv (IZR j - 1) (IZR M) HM ltac:(lra)).
    pose proof (Hdiv (IZR i) (IZR N) HN ltac:(lra)).
    pose proof (Hdiv (IZR i - 1) (IZR N) HN ltac:(lra)).
    pose proof (Hmono (IZR j) (IZR M) HM).
    pose proof (Hmono (IZR i) (IZR N) HN).
    lra.
Qed.

(** X18. In exact real arithmetic the rows of patches next to the
    poles hold degenerate triangles: in row 1 the second and third
    vertex of every patch are both the pole (0, 0, r), and in row N the
    fourth and fifth vertex are both the pole (0, 0, -r). *)
Theorem Sphere_poles (r : R) (N M : Z) (c1 c2 : vec3 R)
    (env : Env (Globals R)) (j : Z) :
  (1 <= N)%Z -> (1 <= j <= M)%Z ->
  exists shape env',
    Sphere count_vertices vec3_normalize r N M c1 c2 env = Normal (shape, env')
    /\ let vertices i :=
         vec3s_of (vertices_of_patch 3 M i j (stream shape "vertexPosition")) in
       vertices 1%Z !! 1%nat = Some (0, 0, r)
       /\ vertices 1%Z !! 2%nat = Some (0, 0, r)
       /\ vertices N !! 3%nat = Some (0, 0, - r)
       /\ vertices N !! 4%nat = Some (0, 0, - r).
Proof.
  intros HN Hj.
  destruct (Sphere_normal count_vertices vec3_normalize r N M c1 c2 env)
    as [console' Hrun].
  destruct (Sphere_grid_lists vec3_normalize r N M c1 c2 (world env))
    as (Hv & _ & _).
  cbv zeta in Hrun, Hv.
  eexists _, _. split; [exact Hrun|].
  cbv beta zeta.
  unfold stream. cbn [vertexBuffers List.find attrType dataArray
                        new_VertexAttributeBuffer String.eqb Ascii.eqb Bool.eqb].
  rewrite Hv. unfold Sphere_points.
  rewrite !(Sphere_patch_slice 3 vec3_list) by (auto || lia).
  rewrite !vec3s_of_flat_map.
  unfold Sphere_patch_points, Sphere_point, Sphere_u1, Sphere_u2.
  cbn [lookup list_lookup num_of_Z num_sub num_mul num_div Math_PI Math_sin Math_cos
         Number_R JSMath_R].
  assert (Hnorth : PI / IZR N * (1 - 1) = 0) by (unfold Rdiv; ring).
  assert (Hsouth : PI / IZR N * IZR N = PI).
  { assert (IZR N <> 0) by (apply not_0_IZR; lia). field. assumption. }
  rewrite Hnorth, Hsouth, sin_0, cos_0, sin_PI, cos_PI.
  repeat split; do 2 f_equal; try (f_equal; ring); ring.
Qed.

End SphereOverR.

(** ** The shape container: [addVertexAttribute] and [draw] *)

Section ShapeMore.

Context {F : Type} {numF : Number F}.
Variable count_vertices : string -> DataType -> Z -> Float32Array F -> Z.
Context {W : Type}.

(** X19. [addVertexAttribute] always returns; it appends the new
    buffer after those present and changes nothing else of the shape
    nor of the world, and it writes to the console (one line) exactly
    when the vertex count of the buffer differs from the one the
    shape declares. *)
Theorem addVertexAttribute_effect (this : VertexBasedShape F)
    (attrType : string) (dataType : DataType) (numElements : Z)
    (dataArray : Float32Array F) (env : Env W) :
  let buf := new_VertexAttributeBuffer count_vertices attrType dataType
               numElements dataArray in
  exists shape env',
    addVertexAttribute count_vertices this attrType dataType numElements dataArray env
    = Normal (shape, env')
    /\ vertexBuffers shape = vertexBuffers this ++ [buf]
    /\ numVertices shape = numVertices this
    /\ primitiveType shape = primitiveType this
    /\ elementBuffer shape = elementBuffer this
    /\ world env' = world env
    /\ (console env' = console env <-> numVertices this = buf_numVertices buf)
    /\ (length (console env') <= length (console env) + 1)%nat.
Proof.
  intros buf.
  destruct (Z.eq_dec (numVertices this) (buf_numVertices buf)) as [Heq|Hne].
  - rewrite (addVertexAttribute_match count_vertices this attrType dataType
               numElements dataArray env Heq).
    eexists _, _. split; [reflexivity|]. cbn. repeat split; auto; lia.
  - subst buf. unfold addVertexAttribute. cbn in Hne |- *.
    rewrite (proj2 (Z.eqb_neq _ _) Hne).
    eexists _, _. split; [reflexivity|]. cbn. repeat split; auto.
    + intros Hsame. apply (f_equal length) in Hsame.
      rewrite length_app in Hsame. simpl in Hsame. lia.
    + intros Heq. contradiction.
    + rewrite length_app. simpl. lia.
Qed.

End ShapeMore.

Section DrawTheorems.

Context {F : Type}.
Variable count_elements : list Z -> Z.

Lemma draw_loop (this : VertexBasedShape F) (rest pre : list (VertexAttributeBuffer F))
    (calls : list (GLCall F)) (a : Z) :
  vertexBuffers this = pre ++ rest ->
  for_upto (length rest) (Z.of_nat (length pre)) (draw_activate this)
    (Some (mkDrawEnv calls a))
  = Some (mkDrawEnv (calls ++ map MakeActive rest)
            (match rest with
             | [] => a
             | _ :: _ => Z.of_nat (length (vertexBuffers this))
             end)).
Proof.
  revert pre calls a. induction rest as [|b rest IH]; intros pre calls a Hsplit.
  - simpl. now rewrite app_nil_r.
  - assert (Hstep : draw_activate this (Z.of_nat (length pre))
                      (Some (mkDrawEnv calls a))
                    = Some (mkDrawEnv (calls ++ [MakeActive b])
                              (Z.of_nat (length (pre ++ [b]))))).
    { unfold draw_activate.
      rewrite Nat2Z.id, Hsplit, list_lookup_middle by reflexivity.
      do 2 f_equal. rewrite length_app. simpl. lia. }
    cbn [length for_upto]. rewrite Hstep.
    replace (Z.of_nat (length pre) + 1)%Z with (Z.of_nat (length (pre ++ [b])))
      by (rewrite length_app; simpl; lia).
    rewrite IH by (rewrite Hsplit, <- app_assoc; reflexivity).
    cbn [map]. rewrite <- app_assoc. cbn [app].
    destruct rest; [|reflexivity].
    rewrite Hsplit. reflexivity.
Qed.

(** X20. [draw] never fails on reading its buffers.  It activates
    every vertex buffer once, in the order they were added, then the
    element buffer if there is one, and then issues exactly one
    [drawArrays] call, from 0, for the number of elements of the
    element buffer if there is one and for the number of vertices of
    the shape otherwise.  The loop variable is left on the global
    object, equal to the number of vertex buffers. *)
Theorem draw_calls (this : VertexBasedShape F) (st : DrawEnv F) :
  draw count_elements this st
  = Some (mkDrawEnv
            (gl_calls st
             ++ map MakeActive (vertexBuffers this)
             ++ match elementBuffer this with
                | Some indices => [MakeActiveElements indices]
                | None => []
                end
             ++ [DrawArrays (primitiveType this) 0
                   (match elementBuffer this with
                    | Some indices => count_elements indices
                    | None => numVertices this
                    end)])
            (Z.of_nat (length (vertexBuffers this)))).
Proof.
  unfold draw, for_lt.
  replace (Z.to_nat (Z.of_nat (length (vertexBuffers this)) - 0))
    with (length (vertexBuffers this)) by lia.
  pose proof (draw_loop this (vertexBuffers this) [] (gl_calls st) 0 eq_refl)
    as Hloop.
  change (Z.of_nat (length [])) with 0%Z in Hloop. rewrite Hloop.
  assert (Hattr : match vertexBuffers this with
                  | [] => 0%Z
                  | _ :: _ => Z.of_nat (length (vertexBuffers this))
                  end = Z.of_nat (length (vertexBuffers this)))
    by (destruct (vertexBuffers this); reflexivity).
  rewrite Hattr. unfold gl_call.
  destruct (elementBuffer this) as [indices|]; cbn [gl_calls attribute];
    rewrite <- ?app_assoc; reflexivity.
Qed.

End DrawTheorems.

Section DrawTessellated.

Context {F : Type} {numF : Number F}.
Variable count_vertices : string -> DataType -> Z -> Float32Array F -> Z.
Variable count_elements : list Z -> Z.
Context {W : Type}.

(** X21. Drawing what the tessellator made reads every array it
    activates to its end and no further: for M * N >= 0 the one
    [drawArrays] call is for TRIANGLES, from 0, for M*N*6 vertices,
    after the buffers of the attributes supplied were activated, each
    of them holding M*N*6 times its number of components. *)
Theorem draw_tessellated
    (obj : Surface F W) (M N : Z) (umin umax vmin vmax : F)
    (col1 col2 : option (vec3 F)) (env : Env W) (st : DrawEnv F) :
  (0 <= M * N)%Z ->
  exists shape env' st',
    GenerateParametricSurface count_vertices obj M N umin umax vmin vmax col1 col2 env
    = Normal (shape, env')
    /\ draw count_elements shape st = Some st'
    /\ gl_calls st'
       = gl_calls st ++ map MakeActive (vertexBuffers shape)
         ++ [DrawArrays TRIANGLES 0 (M * N * 6)]
    /\ Forall (fun b => Z.of_nat (length (dataArray b))
                        = (M * N * 6 * numElements b)%Z)
         (vertexBuffers shape).
Proof.
  intros Hpos.
  destruct (GenerateParametricSurface_normal count_vertices obj M N
              umin umax vmin vmax col1 col2 env Hpos) as [console' Hrun].
  eexists _, _, _. split; [exact Hrun|].
  split; [apply draw_calls|]. split; [reflexivity|].
  unfold result_shape. cbn [vertexBuffers].
  repeat (apply Forall_app; split); apply Forall_attached; cbn [dataArray numElements
    new_VertexAttributeBuffer].
  - rewrite final_length_vposition. lia.
  - rewrite final_length_vnormal. lia.
  - rewrite final_length_vtexcoord. lia.
  - rewrite final_length_vcolor. lia.
Qed.

End DrawTessellated.

(** ** Quad *)

Section QuadTheorems.

Context {F : Type} {numF : Number F}.
Variable count_vertices : string -> DataType -> Z -> Float32Array F -> Z.
Variable vec3_cross : vec3 F -> vec3 F -> vec3 F.
Variable vec3_normalize : vec3 F -> vec3 F.
Context {W : Type}.

Local Open Scope num_scope.

Lemma Quad_normal (o u v : vec3 F) (env : Env W) :
  exists console',
    Quad count_vertices vec3_cross vec3_normalize o u v env
    = Normal
        (mkShape
           [new_VertexAttributeBuffer count_vertices "vertexPosition" FLOAT 3
              (flat_map vec3_list (Quad_positions o u v));
            new_VertexAttributeBuffer count_vertices "vertexTexCoord" FLOAT 2
              (flat_map vec2_list Quad_texcoords);
            new_VertexAttributeBuffer count_vertices "vertexNormal" FLOAT 3
              (flat_map vec3_list
                 (replicate 6 (vec3_normalize (vec3_cross u v))))]
           None TRIANGLES 6,
         mkEnv (world env) console').
Proof.
  destruct o as [[o0 o1] o2], u as [[u0 u1] u2], v as [[v0 v1] v2].
  destruct env as [w console0].
  unfold Quad, mbind, JS_bind, mret, JS_ret.
  destruct (vec3_normalize (vec3_cross (u0, u1, u2) (v0, v1, v2)))
    as [[n0 n1] n2].
  unfold addVertexAttribute, console_log, mbind, JS_bind, mret, JS_ret.
  cbn [numVertices buf_numVertices new_VertexAttributeBuffer new_VertexBasedShape
         vertexBuffers elementBuffer primitiveType world console app].
  repeat match goal with
         | |- context [negb ?b] => destruct b; cbn [negb]
         end;
    eexists; reflexivity.
Qed.

Lemma Quad_quiet (o u v : vec3 F) (env : Env W) :
  exact_counter count_vertices ->
  exists shape,
    Quad count_vertices vec3_cross vec3_normalize o u v env = Normal (shape, env).
Proof.
  intros Hexact.
  destruct o as [[o0 o1] o2], u as [[u0 u1] u2], v as [[v0 v1] v2].
  unfold Quad, mbind, JS_bind, mret, JS_ret.
  destruct (vec3_normalize (vec3_cross (u0, u1, u2) (v0, v1, v2)))
    as [[n0 n1] n2].
  repeat (rewrite exact_counter_attach;
          [|exact Hexact|lia|reflexivity]).
  eexists. reflexivity.
Qed.

(** X22. [Quad] returns a shape of 6 vertices with three buffers:
    the positions (18 numbers), the texture coordinates (12 numbers)
    and the normals (18 numbers), the same normal
    [normalize (cross u v)] for all six vertices.  It leaves the world
    as it was and, when the buffer constructor counts exactly, writes
    nothing to the console. *)
Theorem Quad_shape (o u v : vec3 F) (env : Env W) :
  exists shape env',
    Quad count_vertices vec3_cross vec3_normalize o u v env = Normal (shape, env')
    /\ numVertices shape = 6%Z
    /\ map attrType (vertexBuffers shape)
       = ["vertexPosition"; "vertexTexCoord"; "vertexNormal"]%string
    /\ length (stream shape "vertexPosition") = 18%nat
    /\ length (stream shape "vertexTexCoord") = 12%nat
    /\ length (stream shape "vertexNormal") = 18%nat
    /\ vec3s_of (stream shape "vertexNormal")
       = replicate 6 (vec3_normalize (vec3_cross u v))
    /\ world env' = world env
    /\ (exact_counter count_vertices -> console env' = console env).
Proof.
  destruct (Quad_normal o u v env) as [console' Hrun].
  eexists _, _. split; [exact Hrun|].
  destruct o as [[o0 o1] o2], u as [[u0 u1] u2], v as [[v0 v1] v2].
  split; [reflexivity|]. split; [reflexivity|].
  split; [reflexivity|]. split; [reflexivity|]. split; [reflexivity|].
  split; [apply (vec3s_of_flat_map (replicate 6 _))|].
  split; [reflexivity|].
  intros Hexact.
  destruct (Quad_quiet (o0, o1, o2) (u0, u1, u2) (v0, v1, v2) env Hexact)
    as [shape Hquiet].
  rewrite Hquiet in Hrun. injection Hrun as _ Henv.
  rewrite Henv. reflexivity.
Qed.

End QuadTheorems.

Section QuadOverR.

Variable count_vertices : string -> DataType -> Z -> Float32Array R -> Z.
Variable vec3_cross : vec3 R -> vec3 R -> vec3 R.
Variable vec3_normalize : vec3 R -> vec3 R.
Context {W : Type}.

Local Open Scope R_scope.

(** X23. In exact real arithmetic the texture coordinates (s, t) of
    each vertex of the quad are its coordinates in the frame of the
    quad: its position is o + s u + t v.  In particular the two
    triangles agree on the vertices they share. *)
Theorem Quad_texture_frame (o u v : vec3 R) (env : Env W) :
  exists shape env',
    Quad count_vertices vec3_cross vec3_normalize o u v env = Normal (shape, env')
    /\ Forall2 (fun (p : vec3 R) (st : vec2 R) =>
                  p.1.1 = o.1.1 + st.1 * u.1.1 + st.2 * v.1.1
                  /\ p.1.2 = o.1.2 + st.1 * u.1.2 + st.2 * v.1.2
                  /\ p.2 = o.2 + st.1 * u.2 + st.2 * v.2)
         (vec3s_of (stream shape "vertexPosition"))
         (vec2s_of (stream shape "vertexTexCoord")).
Proof.
  destruct (Quad_normal count_vertices vec3_cross vec3_normalize o u v env)
    as [console' Hrun].
  eexists _, _. split; [exact Hrun|].
  unfold stream. cbn [vertexBuffers List.find attrType dataArray
                        new_VertexAttributeBuffer String.eqb Ascii.eqb Bool.eqb].
  rewrite vec3s_of_flat_map, vec2s_of_flat_map.
  destruct o as [[o0 o1] o2], u as [[u0 u1] u2], v as [[v0 v1] v2].
  unfold Quad_positions, Quad_texcoords.
  cbn [fst snd num_of_Z num_add Number_R].
  repeat (constructor; [cbn [fst snd]; repeat split; ring|]). constructor.
Qed.

End QuadOverR.

(** ** Instances of the further properties *)

Lemma length_per_element_exact {F : Type} :
  exact_counter (length_per_element (F:=F)).
Proof.
  intros name dataType numElements data k Hpos Hlen.
  unfold length_per_element. rewrite Hlen. apply Z.div_mul. lia.
Qed.

Lemma saddle_position_pure :
  pure_method (fun (u v : R) (w : unit) => ((u, v, (u * v)%R), w))
    (fun u v => (u, v, (u * v)%R)).
Proof. intros u v w. reflexivity. Qed.

Lemma GenerateParametricSurface_negative_grid_witness :
  (-1 < 0)%Z /\ (-2 < 0)%Z
  /\ exists shape env',
       GenerateParametricSurface length_per_element plane (-1) (-2)
         0%Q 1%Q 0%Q 1%Q None None (start tt) = Normal (shape, env')
       /\ numVertices shape = 12%Z
       /\ world env' = tt.
Proof.
  split; [lia|]. split; [lia|].
  destruct (GenerateParametricSurface_negative_grid length_per_element plane
              (-1) (-2) 0%Q 1%Q 0%Q 1%Q None None (start tt))
    as (shape & env' & Hrun & Hn & _ & _ & Hw); [lia|lia|].
  exists shape, env'. split; [exact Hrun|]. split; [exact Hn|exact Hw].
Defined.

Lemma GenerateParametricSurface_call_counts_witness :
  (0 <= 2)%Z /\ (0 <= 3)%Z
  /\ exists shape env' calls,
       GenerateParametricSurface length_per_element (traced plane) 2 3
         0%Q 1%Q 0%Q 1%Q None None (start (tt, [])) = Normal (shape, env')
       /\ (world env').2 = calls
       /\ Z.of_nat (length (calls_of "position" calls)) = 36%Z
       /\ Z.of_nat (length (calls_of "normal" calls)) = 0%Z.
Proof.
  split; [lia|]. split; [lia|].
  destruct (GenerateParametricSurface_call_counts length_per_element plane 2 3
              0%Q 1%Q 0%Q 1%Q None None (start (tt, [])))
    as (shape & env' & calls & Hrun & Hlog & _ & Hp & Hn); [lia|lia|].
  exists shape, env', calls. split; [exact Hrun|]. split; [exact Hlog|].
  split; [exact Hp|exact Hn].
Defined.

Lemma GenerateParametricSurface_no_warning_witness :
  exact_counter (length_per_element (F:=Q)) /\ (0 <= 2 * 3)%Z
  /\ exists shape env',
       GenerateParametricSurface length_per_element plane 2 3
         0%Q 1%Q 0%Q 1%Q (Some red) (Some blue) (start tt) = Normal (shape, env')
       /\ console env' = [].
Proof.
  split; [apply length_per_element_exact|]. split; [lia|].
  apply (GenerateParametricSurface_no_warning length_per_element plane 2 3
           0%Q 1%Q 0%Q 1%Q (Some red) (Some blue) (start tt));
    [apply length_per_element_exact|lia].
Defined.

Lemma GenerateParametricSurface_patches_meet_witness :
  position saddle = Some (fun u v w => ((u, v, (u * v)%R), w))
  /\ (1 <= 1 <= 2)%Z /\ (1 <= 1 <= 2)%Z
  /\ exists shape env',
       GenerateParametricSurface length_per_element saddle 2 2
         0%R 1%R 0%R 1%R None None (start tt) = Normal (shape, env')
       /\ exists a,
            vec3s_of (vertices_of_patch 3 2 1 1 (stream shape "vertexPosition"))
              !! 2%nat = Some a
            /\ vec3s_of (vertices_of_patch 3 2 2 1 (stream shape "vertexPosition"))
                 !! 1%nat = Some a.
Proof.
  split; [reflexivity|]. split; [lia|]. split; [lia|].
  destruct (GenerateParametricSurface_patches_meet length_per_element saddle 2 2
              0%R 1%R 0%R 1%R None None (start tt) _ _ 1 1
              eq_refl saddle_position_pure)
    as (shape & env' & Hrun & Hu & _); [lia|lia|].
  exists shape, env'. split; [exact Hrun|].
  destruct Hu as (a & b & Ha & Ha' & _); [lia|].
  exists a. split; [exact Ha|exact Ha'].
Defined.

Lemma GenerateParametricSurface_covers_domain_witness :
  position saddle = Some (fun u v w => ((u, v, (u * v)%R), w))
  /\ (1 <= 2)%Z /\ (1 <= 3)%Z
  /\ exists shape env',
       GenerateParametricSurface length_per_element saddle 2 3
         0%R 1%R 0%R 1%R None None (start tt) = Normal (shape, env')
       /\ vec3s_of (vertices_of_patch 3 3 2 3 (stream shape "vertexPosition"))
            !! 3%nat = Some (1%R, 1%R, (1 * 1)%R).
Proof.
  split; [reflexivity|]. split; [lia|]. split; [lia|].
  destruct (GenerateParametricSurface_covers_domain length_per_element saddle 2 3
              0%R 1%R 0%R 1%R None None (start tt) _ _
              eq_refl saddle_position_pure)
    as (shape & env' & Hrun & _ & _ & _ & Hlast); [lia|lia|].
  exists shape, env'. split; [exact Hrun|exact Hlast].
Defined.

Lemma Torus_position_on_torus_witness :
  (0 <= 1 <= 2)%R
  /\ let '(x, y, z) := (Torus_position (mkTorus 2%R 1%R) 0%R 0%R
                          (mkGlobals 0%R 0%R 0%R)).1 in
     ((sqrt (x * x + y * y) - 2) * (sqrt (x * x + y * y) - 2) + z * z = 1 * 1)%R.
Proof.
  split; [lra|].
  apply (Torus_position_on_torus (mkTorus 2%R 1%R) 0%R 0%R (mkGlobals 0%R 0%R 0%R)).
  simpl. lra.
Defined.

Lemma Torus_mesh_closed_witness :
  (1 <= 1 <= 4)%Z /\ (1 <= 1 <= 3)%Z
  /\ exists shape env',
       Torus length_per_element 2%R 1%R 3 4 None None
         (start (mkGlobals 0%R 0%R 0%R)) = Normal (shape, env')
       /\ exists a,
            vec3s_of (vertices_of_patch 3 3 4 1 (stream shape "vertexPosition"))
              !! 2%nat = Some a
            /\ vec3s_of (vertices_of_patch 3 3 1 1 (stream shape "vertexPosition"))
                 !! 1%nat = Some a.
Proof.
  split; [lia|]. split; [lia|].
  destruct (Torus_mesh_closed length_per_element 2%R 1%R 3 4 None None
              (start (mkGlobals 0%R 0%R 0%R)) 1 1)
    as (shape & env' & Hrun & (a & b & Ha & Ha' & _) & _); [lia|lia|].
  exists shape, env'. split; [exact Hrun|].
  exists a. split; [exact Ha|exact Ha'].
Defined.

Lemma Torus_texture_coordinates_witness :
  (1 <= 2 <= 4)%Z /\ (1 <= 3 <= 3)%Z
  /\ exists shape env',
       Torus length_per_element 2%R 1%R 3 4 None None
         (start (mkGlobals 0%R 0%R 0%R)) = Normal (shape, env')
       /\ vec2s_of (vertices_of_patch 2 3 2 3 (stream shape "vertexTexCoord"))
          = [((2 - 1) / 4, 3 / 3); ((2 - 1) / 4, (3 - 1) / 3); (2 / 4, (3 - 1) / 3);
             (2 / 4, 3 / 3); ((2 - 1) / 4, 3 / 3); (2 / 4, (3 - 1) / 3)]%R.
Proof.
  split; [lia|]. split; [lia|].
  destruct (Torus_texture_coordinates length_per_element 2%R 1%R 3 4 None None
              (start (mkGlobals 0%R 0%R 0%R)) 2 3)
    as (shape & env' & Hrun & Htex & _); [lia|lia|].
  exists shape, env'. split; [exact Hrun|exact Htex].
Defined.

Lemma Torus_sets_global_h_witness :
  (1 <= 4)%Z /\ (1 <= 3)%Z
  /\ exists shape env',
       Torus length_per_element 2%R 1%R 3 4 None None
         (start (mkGlobals 7%R 8%R 9%R)) = Normal (shape, env')
       /\ h (world env') = 1%R /\ u1 (world env') = 8%R /\ u2 (world env') = 9%R.
Proof.
  split; [lia|]. split; [lia|].
  destruct (Torus_sets_global_h length_per_element 2%R 1%R 3 4 None None
              (start (mkGlobals 7%R 8%R 9%R)))
    as (shape & env' & Hrun & Hh & Hu1 & Hu2); [lia|lia|].
  exists shape, env'. split; [exact Hrun|].
  split; [exact Hh|]. split; [exact Hu1|exact Hu2].
Defined.

Lemma Sphere_no_warning_witness :
  exact_counter (length_per_element (F:=R))
  /\ exists shape env',
       Sphere length_per_element (fun v => v) 1%R 2 3
         (1%R, 0%R, 0%R) (0%R, 0%R, 1%R) (start (mkGlobals 0%R 0%R 0%R))
       = Normal (shape, env')
       /\ console env' = [].
Proof.
  split; [apply length_per_element_exact|].
  apply (Sphere_no_warning length_per_element (fun v => v) 1%R 2 3
           (1%R, 0%R, 0%R) (0%R, 0%R, 1%R) (start (mkGlobals 0%R 0%R 0%R))).
  apply length_per_element_exact.
Defined.

Lemma Sphere_colors_exchanged_witness :
  (0 <= 2)%Z /\ (0 <= 3)%Z
  /\ exists sphere env' shape env0',
       Sphere length_per_element (fun v => v) 1%R 2 3
         (1%R, 0%R, 0%R) (0%R, 0%R, 1%R) (start (mkGlobals 0%R 0%R 0%R))
       = Normal (sphere, env')
       /\ GenerateParametricSurface length_per_element saddle 2 3
            0%R 1%R 0%R 1%R (Some (0%R, 0%R, 1%R)) (Some (1%R, 0%R, 0%R)) (start tt)
          = Normal (shape, env0')
       /\ stream sphere "vertexColor" = stream shape "vertexColor".
Proof.
  split; [lia|]. split; [lia|].
  apply (Sphere_colors_exchanged length_per_element (fun v => v) 1%R 2 3
           (1%R, 0%R, 0%R) (0%R, 0%R, 1%R) (start (mkGlobals 0%R 0%R 0%R))
           saddle 0%R 1%R 0%R 1%R (start tt)); lia.
Defined.

Lemma Sphere_texture_coordinates_witness :
  (1 <= 2 <= 2)%Z /\ (1 <= 1 <= 3)%Z
  /\ exists shape env',
       Sphere length_per_element (fun v => v) 1%R 2 3
         (1%R, 0%R, 0%R) (0%R, 0%R, 1%R) (start (mkGlobals 0%R 0%R 0%R))
       = Normal (shape, env')
       /\ vec2s_of (vertices_of_patch 2 3 2 1 (stream shape "vertexTexCoord"))
            !! 0%nat = Some (1 / 3 + 1 / 4, - (2 / 2))%R.
Proof.
  split; [lia|]. split; [lia|].
  destruct (Sphere_texture_coordinates length_per_element (fun v => v) 1%R 2 3
              (1%R, 0%R, 0%R) (0%R, 0%R, 1%R) (start (mkGlobals 0%R 0%R 0%R)) 2 1)
    as (shape & env' & Hrun & Htex & _); [lia|lia|].
  exists shape, env'. split; [exact Hrun|]. rewrite Htex. reflexivity.
Defined.

Lemma Sphere_poles_witness :
  (1 <= 2)%Z /\ (1 <= 1 <= 3)%Z
  /\ exists shape env',
       Sphere length_per_element (fun v => v) 1%R 2 3
         (1%R, 0%R, 0%R) (0%R, 0%R, 1%R) (start (mkGlobals 0%R 0%R 0%R))
       = Normal (shape, env')
       /\ vec3s_of (vertices_of_patch 3 3 1 1 (stream shape "vertexPosition"))
            !! 1%nat = Some (0%R, 0%R, 1%R)
       /\ vec3s_of (vertices_of_patch 3 3 2 1 (stream shape "vertexPosition"))
            !! 4%nat = Some (0%R, 0%R, (- 1)%R).
Proof.
  split; [lia|]. split; [lia|].
  destruct (Sphere_poles length_per_element (fun v => v) 1%R 2 3
              (1%R, 0%R, 0%R) (0%R, 0%R, 1%R) (start (mkGlobals 0%R 0%R 0%R)) 1)
    as (shape & env' & Hrun & Hn & _ & _ & Hs); [lia|lia|].
  exists shape, env'. split; [exact Hrun|]. split; [exact Hn|exact Hs].
Defined.

Lemma draw_tessellated_witness :
  (0 <= 2 * 3)%Z
  /\ exists shape env' st',
       GenerateParametricSurface length_per_element plane 2 3
         0%Q 1%Q 0%Q 1%Q None None (start tt) = Normal (shape, env')
       /\ draw (fun indices => Z.of_nat (length indices)) shape (mkDrawEnv [] 0)
          = Some st'
       /\ gl_calls st'
          = map MakeActive (vertexBuffers shape) ++ [DrawArrays TRIANGLES 0 36].
Proof.
  split; [lia|].
  destruct (draw_tessellated length_per_element
              (fun indices => Z.of_nat (length indices)) plane 2 3
              0%Q 1%Q 0%Q 1%Q None None (start tt) (mkDrawEnv [] 0))
    as (shape & env' & st' & Hrun & Hdraw & Hcalls & _); [lia|].
  exists shape, env', st'. split; [exact Hrun|]. split; [exact Hdraw|exact Hcalls].
Defined.
